(** * game_engine: the lobby and drawing routes over the two collections

    A shallow embedding of routes/gameRoutes.js (the nine-route router) and
    of models/Drawing.js, with the Game model taken from the data model of
    the specification.  A request handler is a function from the contents
    of the two collections to a response and the new contents.

    Two facts of the model layer carry the routes: a model constructor keeps
    the paths of its schema and nothing else (schemas are strict unless they
    say otherwise, and drawingSchema does not), and a query filter reaches
    the collection with the keys the route wrote into it. *)

From Stdlib Require Import ZArith List String Bool Lia.
From stdpp Require Import base option list strings.
Import ListNotations.

Local Open Scope Z_scope.
Local Open Scope string_scope.

(** ** Documents *)

(** drawingPointSchema: four Number paths.  No route computes with them,
    they are stored and handed back, and are carried here as integers. *)
Record DrawingPoint := mkDrawingPoint {
  offsetDx : Z;
  offsetDy : Z;
  pointType : Z;
  pressure : Z
}.

(** A document of the drawings collection.  The nine fields after
    [game_code] are the paths of drawingSchema; a String or Number path
    that was never given is absent ([None]), [is_completed] and
    [created_at] have schema defaults.  [game_code] is NOT a path of
    drawingSchema: [new Drawing(..)] never sets it (see [Drawing_new]), yet
    the routes filter on it, so the field of the stored document is kept. *)
Record Drawing := mkDrawing {
  game_code : option string;
  created_at : Z;
  drawed_parts_of_player : option string;
  drawing_points : list DrawingPoint;
  is_completed : bool;
  player_drawing : option string;
  player_id : option Z;
  player_image : option string;
  player_name : option string;
  player_part : option string
}.

(** The JSON body of POST /updateDrawingStatus: any of the schema paths,
    and possibly a game_code (the scenario of the specification sends one). *)
Record DrawingData := mkDrawingData {
  dd_game_code : option string;
  dd_created_at : option Z;
  dd_drawed_parts_of_player : option string;
  dd_drawing_points : list DrawingPoint;
  dd_is_completed : option bool;
  dd_player_drawing : option string;
  dd_player_id : option Z;
  dd_player_image : option string;
  dd_player_name : option string;
  dd_player_part : option string
}.

(** Modelled from the spec: the Player sub-document of models/Game.js, which
    is not among the sources (fields of section 3, and the game_code that
    the two roster routes write into every player). *)
Record Player := mkPlayer {
  p_game_code : string;
  p_player_name : string;
  p_player_number : Z;
  p_player_image : string;
  p_player_body_parts_with_player_names : list string;
  p_player_body_images : list string;
  p_player_current_step : list Z
}.

(** The [player_data] object of the two roster routes.  The routes read one
    field of it themselves, [player_body_images], which may be missing. *)
Record PlayerData := mkPlayerData {
  pd_player_name : string;
  pd_player_number : Z;
  pd_player_image : string;
  pd_player_body_parts_with_player_names : list string;
  pd_player_body_images : option (list string);
  pd_player_current_step : list Z
}.

(** Modelled from the spec: the Game document of models/Game.js, which is
    not among the sources (fields of section 3). *)
Record Game := mkGame {
  g_game_code : string;
  games_Parts : list string;
  players : list Player;
  number_of_players : Z;
  join : bool;
  start_game : bool;
  drawing_time : Z;
  g_created_at : Z
}.

(** The JSON body of POST /storeGameState. *)
Record GameData := mkGameData {
  gd_game_code : string;
  gd_games_Parts : list string;
  gd_players : list Player;
  gd_number_of_players : Z;
  gd_join : bool;
  gd_start_game : bool;
  gd_drawing_time : Z;
  gd_created_at : option Z
}.

(** The two collections.  Documents are never deleted and a new document
    goes to the end, so the position of a document is its identity (_id). *)
Record Store := mkStore {
  Games : list Game;
  Drawings : list Drawing
}.

(** ** Responses *)

(** The [game] object that validateJoinGame builds by hand. *)
Record JoinedGame := mkJoinedGame {
  j_game_code : string;
  j_number_of_players : Z;
  j_games_Parts : list string;
  j_players : list Player
}.

Inductive Json :=
| J_message (message : string)
| J_message_game (message : string) (game : Game)
| J_message_drawing (message : string) (drawing : Drawing)
| J_incompletePlayers (incompletePlayers : list string)
| J_drawing (points : list DrawingPoint) (completed : bool)
| J_drawings (drawings : list Drawing)
| J_canJoin (message : string) (canJoin : bool)
| J_joined (message : string) (canJoin : bool) (game : JoinedGame).

Record Response := mkResponse {
  status : Z;
  json : Json
}.

(** ** Handlers: [return res...] and [throw] inside [try { } catch] *)

Inductive Outcome (A : Type) :=
| Val (a : A)
| Sent (r : Response)
| Thrown (message : string).
Arguments Val {A} a.
Arguments Sent {A} r.
Arguments Thrown {A} message.

Definition Route (A : Type) : Type := Store -> Store * Outcome A.

#[global] Instance Route_ret : MRet Route :=
  fun A a s => (s, Val a).

#[global] Instance Route_bind : MBind Route :=
  fun A B f m s =>
    match m s with
    | (s', Val a) => f a s'
    | (s', Sent r) => (s', Sent r)
    | (s', Thrown e) => (s', Thrown e)
    end.

(** [return res.status(code).json(body)] *)
Definition send {A} (code : Z) (body : Json) : Route A :=
  fun s => (s, Sent (mkResponse code body)).

Definition throw {A} (message : string) : Route A :=
  fun s => (s, Thrown message).

(** [try { body } catch (error) { res.status(code).json({message: error.message}) }] *)
Definition try_catch (code : Z) (body : Route Response) (s : Store)
  : Response * Store :=
  match body s with
  | (s', Val r) => (r, s')
  | (s', Sent r) => (r, s')
  | (s', Thrown e) => (mkResponse code (J_message e), s')
  end.

(** ** The model layer *)

Definition str_eqb (a b : string) : bool := bool_decide (a = b).

(** A query filter on drawings: the keys a route puts in the filter object. *)
Record DrawingFilter := mkDrawingFilter {
  f_game_code : option string;
  f_player_name : option string;
  f_player_part : option string;
  f_is_completed : option bool
}.

(** A key of the filter holds of a document when the document has that
    field with that value; a document without the field does not match. *)
Definition holds {A} `{EqDecision A} (want : option A) (have : option A) : bool :=
  match want with
  | None => true
  | Some v => bool_decide (have = Some v)
  end.

Definition matches (f : DrawingFilter) (d : Drawing) : bool :=
  holds (f_game_code f) (game_code d)
  && holds (f_player_name f) (player_name d)
  && holds (f_player_part f) (player_part d)
  && holds (f_is_completed f) (Some (is_completed d)).

Fixpoint find_index {A} (p : A -> bool) (l : list A) : option (nat * A) :=
  match l with
  | [] => None
  | x :: l' =>
      if p x then Some (O, x)
      else match find_index p l' with
           | Some (i, y) => Some (S i, y)
           | None => None
           end
  end.

(** The first game with that code, and where it sits in the collection. *)
Definition first_game (code : string) (gs : list Game) : option (nat * Game) :=
  find_index (fun g => str_eqb (g_game_code g) code) gs.

(** [Game.findOne({ game_code })] *)
Definition Game_findOne (code : string) : Route (option (nat * Game)) :=
  fun s => (s, Val (first_game code (Games s))).

(** [game.save()] on a game that came from [findOne]. *)
Definition Game_save (i : nat) (g : Game) : Route unit :=
  fun s => (mkStore (<[i := g]> (Games s)) (Drawings s), Val tt).

(** Modelled from the spec: [new Game(gameData)] under the schema of
    models/Game.js, which is not among the sources.  The fields of section 3
    are taken from the body as they are sent; [created_at] is "set once at
    creation", here from the clock when the body gives none. *)
Definition Game_new (now : Z) (b : GameData) : Game :=
  mkGame (gd_game_code b) (gd_games_Parts b) (gd_players b)
         (gd_number_of_players b) (gd_join b) (gd_start_game b)
         (gd_drawing_time b) (default now (gd_created_at b)).

(** [game.save()] on a new game. *)
Definition Game_insert (g : Game) : Route unit :=
  fun s => (mkStore (Games s ++ [g]) (Drawings s), Val tt).

(** [new Drawing(drawingData)]: the paths of drawingSchema are taken from the
    body, [is_completed] defaults to false and [created_at] to the clock; a
    key of the body that is no path of the schema (game_code) is dropped. *)
Definition Drawing_new (now : Z) (b : DrawingData) : Drawing :=
  mkDrawing None
            (default now (dd_created_at b))
            (dd_drawed_parts_of_player b)
            (dd_drawing_points b)
            (default false (dd_is_completed b))
            (dd_player_drawing b)
            (dd_player_id b)
            (dd_player_image b)
            (dd_player_name b)
            (dd_player_part b).

Definition Drawing_insert (d : Drawing) : Route unit :=
  fun s => (mkStore (Games s) (Drawings s ++ [d]), Val tt).

(** [Drawing.find(filter)] *)
Definition Drawing_find (f : DrawingFilter) : Route (list Drawing) :=
  fun s => (s, Val (List.filter (matches f) (Drawings s))).

(** [Drawing.findOne(filter)] *)
Definition Drawing_findOne (f : DrawingFilter) : Route (option Drawing) :=
  fun s => (s, Val (List.find (matches f) (Drawings s))).

(** [array.includes(name)] on the names read from drawings. *)
Definition includes (names : list (option string)) (name : string) : bool :=
  existsb (fun x => bool_decide (x = Some name)) names.

Definition set_players (ps : list Player) (g : Game) : Game :=
  mkGame (g_game_code g) (games_Parts g) ps (number_of_players g)
         (join g) (start_game g) (drawing_time g) (g_created_at g).

Definition set_number_of_players (n : Z) (g : Game) : Game :=
  mkGame (g_game_code g) (games_Parts g) (players g) n
         (join g) (start_game g) (drawing_time g) (g_created_at g).

Definition set_start_game (b : bool) (g : Game) : Game :=
  mkGame (g_game_code g) (games_Parts g) (players g) (number_of_players g)
         (join g) b (drawing_time g) (g_created_at g).

Definition set_join (b : bool) (g : Game) : Game :=
  mkGame (g_game_code g) (games_Parts g) (players g) (number_of_players g)
         b (start_game g) (drawing_time g) (g_created_at g).

Definition set_drawing_time (t : Z) (g : Game) : Game :=
  mkGame (g_game_code g) (games_Parts g) (players g) (number_of_players g)
         (join g) (start_game g) t (g_created_at g).

(** [if (x !== undefined) game.field = x] *)
Definition assign_if_given {A} (set : A -> Game -> Game) (x : option A) (g : Game) : Game :=
  match x with
  | Some v => set v g
  | None => g
  end.

(** [{...player_data, game_code: game_code,
      player_body_images: player_data.player_body_images || []}] *)
Definition as_player (game_code : string) (pd : PlayerData) : Player :=
  mkPlayer game_code
           (pd_player_name pd)
           (pd_player_number pd)
           (pd_player_image pd)
           (pd_player_body_parts_with_player_names pd)
           (default [] (pd_player_body_images pd))
           (pd_player_current_step pd).

(** The same object literal in the route: reading [player_body_images] of a
    [player_data] that the body does not have throws a TypeError. *)
Definition updatedPlayerData (game_code : string) (player_data : option PlayerData)
  : Route Player :=
  match player_data with
  | None => throw "Cannot read properties of undefined (reading 'player_body_images')"
  | Some pd => mret (as_player game_code pd)
  end.

(** [game.players.push(p); game.number_of_players = game.players.length] *)
Definition push_player (p : Player) (game : Game) : Game :=
  let game := set_players (players game ++ [p]) game in
  set_number_of_players (Z.of_nat (length (players game))) game.

(** ** The routes of routes/gameRoutes.js *)

Definition storeGameState (now : Z) (gameData : GameData) : Store -> Response * Store :=
  try_catch 400 (
    let game := Game_new now gameData in
    _ ← Game_insert game;
    mret (mkResponse 201 (J_message_game "Game state stored successfully" game))).

Definition updateDrawingStatus (now : Z) (drawingData : DrawingData)
  : Store -> Response * Store :=
  try_catch 400 (
    let drawing := Drawing_new now drawingData in
    _ ← Drawing_insert drawing;
    mret (mkResponse 201 (J_message_drawing "Drawing status updated successfully" drawing))).

Definition incompleteUsers (game_code part_name : string) : Store -> Response * Store :=
  try_catch 500 (
    game ← Game_findOne game_code;
    match game with
    | None => send 404 (J_message "Game not found")
    | Some (_, game) =>
        let allPlayerNames := map p_player_name (players game) in
        completedDrawings ← Drawing_find
          (mkDrawingFilter (Some game_code) None (Some part_name) (Some true));
        let completedPlayerNames := map player_name completedDrawings in
        let incompletePlayers :=
          List.filter (fun name => negb (includes completedPlayerNames name))
                      allPlayerNames in
        mret (mkResponse 200 (J_incompletePlayers incompletePlayers))
    end).

Definition getDrawing (game_code player_name part_name : string)
  : Store -> Response * Store :=
  try_catch 404 (
    drawing ← Drawing_findOne
      (mkDrawingFilter (Some game_code) (Some player_name) (Some part_name) None);
    match drawing with
    | None => send 404 (J_message "Drawing not found")
    | Some drawing =>
        mret (mkResponse 200 (J_drawing (drawing_points drawing) (is_completed drawing)))
    end).

Definition completedDrawings (game_code : string) : Store -> Response * Store :=
  try_catch 500 (
    completedDrawings ← Drawing_find (mkDrawingFilter None None None (Some true));
    if bool_decide (length completedDrawings = 0%nat)
    then send 404 (J_message "No completed drawings found")
    else mret (mkResponse 200 (J_drawings completedDrawings))).

Definition updateGameWithPlayer (game_code : string) (player_data : option PlayerData)
  : Store -> Response * Store :=
  try_catch 500 (
    game ← Game_findOne game_code;
    match game with
    | None => send 404 (J_message "Game not found")
    | Some (i, game) =>
        updatedPlayerData ← updatedPlayerData game_code player_data;
        let game := push_player updatedPlayerData game in
        _ ← Game_save i game;
        mret (mkResponse 200 (J_message_game "Game updated successfully" game))
    end).

Definition updateGameStatus (game_code : string)
    (start_game join : option bool) (drawing_time : option Z)
  : Store -> Response * Store :=
  try_catch 500 (
    game ← Game_findOne game_code;
    match game with
    | None => send 404 (J_message "Game not found")
    | Some (i, game) =>
        let game := assign_if_given set_start_game start_game game in
        let game := assign_if_given set_join join game in
        let game := assign_if_given set_drawing_time drawing_time game in
        _ ← Game_save i game;
        mret (mkResponse 200 (J_message_game "Game status updated successfully" game))
    end).

Definition validateJoinGame (game_code : string) (player_data : option PlayerData)
  : Store -> Response * Store :=
  try_catch 500 (
    game ← Game_findOne game_code;
    match game with
    | None => send 404 (J_message "Game not found")
    | Some (i, game) =>
        if start_game game
        then send 400 (J_canJoin "Room already started" false)
        else if negb (join game)
        then send 400 (J_canJoin "Room is not accepting new players" false)
        else
          updatedPlayerData ← updatedPlayerData game_code player_data;
          let game := push_player updatedPlayerData game in
          _ ← Game_save i game;
          mret (mkResponse 200
                  (J_joined "User joined the game successfully" true
                     (mkJoinedGame (g_game_code game) (number_of_players game)
                                   (games_Parts game) (players game))))
    end).

Definition getGameData (game_code : string) : Store -> Response * Store :=
  try_catch 500 (
    game ← Game_findOne game_code;
    match game with
    | None => send 404 (J_message "Game not found")
    | Some (_, game) =>
        mret (mkResponse 200 (J_message_game "Game data retrieved successfully" game))
    end).

(** ** The API as a transition system *)

Inductive Request :=
| POST_storeGameState (gameData : GameData)
| POST_updateDrawingStatus (drawingData : DrawingData)
| GET_incompleteUsers (game_code part_name : string)
| GET_getDrawing (game_code player_name part_name : string)
| GET_completedDrawings (game_code : string)
| PUT_updateGameWithPlayer (game_code : string) (player_data : option PlayerData)
| PUT_updateGameStatus (game_code : string) (start_game join : option bool)
                       (drawing_time : option Z)
| POST_validateJoinGame (game_code : string) (player_data : option PlayerData)
| GET_getGameData (game_code : string).

(** One request served at clock reading [now]. *)
Definition serve (now : Z) (req : Request) : Store -> Response * Store :=
  match req with
  | POST_storeGameState b => storeGameState now b
  | POST_updateDrawingStatus b => updateDrawingStatus now b
  | GET_incompleteUsers c p => incompleteUsers c p
  | GET_getDrawing c n p => getDrawing c n p
  | GET_completedDrawings c => completedDrawings c
  | PUT_updateGameWithPlayer c pd => updateGameWithPlayer c pd
  | PUT_updateGameStatus c sg j t => updateGameStatus c sg j t
  | POST_validateJoinGame c pd => validateJoinGame c pd
  | GET_getGameData c => getGameData c
  end.

Definition empty_store : Store := mkStore [] [].

(** The stores the API produces from [s0] by requests that satisfy [allowed]. *)
Inductive reachable_via (allowed : Request -> Prop) (s0 : Store) : Store -> Prop :=
| reach_start : reachable_via allowed s0 s0
| reach_serve s now req :
    reachable_via allowed s0 s -> allowed req ->
    reachable_via allowed s0 (snd (serve now req s)).

Definition reachable_from (s0 : Store) : Store -> Prop :=
  reachable_via (fun _ => True) s0.

(** The older router that ships next to server.js: its incompleteUsers asks
    for the drawings of the part that are NOT completed, in any game. *)
Module Legacy.

Definition incompleteUsers (game_code part_name : string) : Store -> Response * Store :=
  try_catch 404 (
    incompleteDrawings ← Drawing_find
      (mkDrawingFilter None None (Some part_name) (Some false));
    game ← Game_findOne game_code;
    match game with
    | None => send 404 (J_message "Game not found")
    | Some (_, game) =>
        let allPlayerNames := map p_player_name (players game) in
        let completedPlayerNames := map player_name incompleteDrawings in
        let incompletePlayerNames :=
          List.filter (fun name => negb (includes completedPlayerNames name))
                      allPlayerNames in
        mret (mkResponse 200 (J_incompletePlayers incompletePlayerNames))
    end).

End Legacy.

(** ** Vocabulary of the properties *)

(** Some drawing of game [c] for part [P] is completed and carries name [n]. *)
Definition completed_by (ds : list Drawing) (c P n : string) : Prop :=
  exists d, In d ds /\ game_code d = Some c /\ player_part d = Some P
            /\ is_completed d = true /\ player_name d = Some n.

(** The [completedPlayerNames] that incompleteUsers computes. *)
Definition completedPlayerNames (ds : list Drawing) (c P : string) : list (option string) :=
  map player_name
      (List.filter (matches (mkDrawingFilter (Some c) None (Some P) (Some true))) ds).

(** [updateGameStatus]'s three assignments. *)
Definition with_status (sg j : option bool) (t : option Z) (g : Game) : Game :=
  assign_if_given set_drawing_time t
    (assign_if_given set_join j (assign_if_given set_start_game sg g)).

(** The games collection after a request, route by route ([serve_Games]). *)
Definition games_after (now : Z) (req : Request) (gs : list Game) : list Game :=
  match req with
  | POST_storeGameState b => gs ++ [Game_new now b]
  | PUT_updateGameWithPlayer c (Some p) =>
      match first_game c gs with
      | Some (i, g) => <[i := push_player (as_player c p) g]> gs
      | None => gs
      end
  | PUT_updateGameStatus c sg j t =>
      match first_game c gs with
      | Some (i, g) => <[i := with_status sg j t g]> gs
      | None => gs
      end
  | POST_validateJoinGame c (Some p) =>
      match first_game c gs with
      | Some (i, g) =>
          if start_game g || negb (join g) then gs
          else <[i := push_player (as_player c p) g]> gs
      | None => gs
      end
  | _ => gs
  end.

(** number_of_players is the length of players. *)
Definition counted (g : Game) : Prop :=
  number_of_players g = Z.of_nat (length (players g)).

(** The request, if it creates a game, sends a number_of_players that is the
    length of the players it sends. *)
Definition counted_body (req : Request) : Prop :=
  match req with
  | POST_storeGameState b => gd_number_of_players b = Z.of_nat (length (gd_players b))
  | _ => True
  end.

Ltac run_route :=
  unfold try_catch, mbind, Route_bind, mret, Route_ret, send, throw,
         Game_findOne, Game_save, Game_insert, Drawing_insert,
         Drawing_find, Drawing_findOne, updatedPlayerData.

(** ** Sample collections *)

Definition player_named (c n : string) : Player :=
  mkPlayer c n 82 "" ["Hat-"; "Head-"] [] [0; 1].

Definition drawing_of (c : option string) (n P : string) (done : bool) : Drawing :=
  mkDrawing c 0 (Some P) [mkDrawingPoint 157 120 0 1] done None (Some 1) None
            (Some n) (Some P).

(** A lobby with a repeated name, and drawings of two games. *)
Definition lobby : Game :=
  mkGame "1000" ["Hat"; "Head"]
         [player_named "1000" "ann"; player_named "1000" "test"; player_named "1000" "ann"]
         3 true false 0 0.

Definition lobby_store : Store :=
  mkStore [lobby]
          [drawing_of (Some "1000") "ann" "Hat" true;
           drawing_of (Some "2000") "test" "Hat" true;
           drawing_of (Some "1000") "test" "Head" true].

(** A one-player lobby, open, closed, and both started and closed. *)
Definition open_lobby : Game :=
  mkGame "1000" ["Hat"; "Head"] [player_named "1000" "test"] 1 true false 0 0.

Definition closed_lobby : Game := set_join false open_lobby.

Definition started_closed_lobby : Game := set_start_game true closed_lobby.

Definition bob : PlayerData :=
  mkPlayerData "bob" 7 "" ["Hat-"; "Head-"] None [0; 1].

(** The scenario of the specification: lobby 1000 is created, "test" joins,
    the lobby is started. *)
Definition body_1000 : GameData :=
  mkGameData "1000" ["Hat"; "Head"] [] 0 true false 0 None.

Definition test_data : PlayerData :=
  mkPlayerData "test" 82 "" ["Hat-"; "Head-"] None [0; 1].

Definition scenario_created : Store :=
  snd (serve 100 (POST_storeGameState body_1000) empty_store).

Definition scenario_joined : Store :=
  snd (serve 101 (POST_validateJoinGame "1000" (Some test_data)) scenario_created).

Definition scenario_started : Store :=
  snd (serve 102 (PUT_updateGameStatus "1000" (Some true) None None) scenario_joined).

Definition started_1000 : Game :=
  mkGame "1000" ["Hat"; "Head"] [as_player "1000" test_data] 1 true true 0 100.

(** A lobby body that announces five players and sends none. *)
Definition miscounted_body : GameData :=
  mkGameData "1000" ["Hat"; "Head"] [] 5 true false 0 None.

(** A finished Hat, sent in for game 2000 into empty collections. *)
Definition finished_hat_2000 : DrawingData :=
  mkDrawingData (Some "2000") None (Some "Hat") [mkDrawingPoint 157 120 0 1]
                (Some true) None (Some 1) None (Some "test") (Some "Hat").

Definition after_hat_2000 : Store :=
  snd (updateDrawingStatus 7 finished_hat_2000 empty_store).

(** The second scenario of the specification: "test" sends in a finished Hat. *)
Definition finished_hat_1000 : DrawingData :=
  mkDrawingData (Some "1000") None (Some "Hat") [mkDrawingPoint 157 120 0 1]
                (Some true) None (Some 1) None (Some "test") (Some "Hat").

Definition after_finished_hat : Store :=
  snd (serve 104 (POST_updateDrawingStatus finished_hat_1000) scenario_joined).

(** The Hat of "test" for game 1000, sent in without is_completed after
    "test" joined. *)
Definition unflagged_hat : DrawingData :=
  mkDrawingData (Some "1000") None (Some "Hat") [mkDrawingPoint 157 120 0 1]
                None None (Some 1) None (Some "test") (Some "Hat").

Definition after_unflagged_hat : Store :=
  snd (serve 104 (POST_updateDrawingStatus unflagged_hat) scenario_joined).

(** ** Vocabulary of the further properties *)

(** The key that getDrawing puts in its filter. *)
Definition has_key (c n P : string) (d : Drawing) : Prop :=
  game_code d = Some c /\ player_name d = Some n /\ player_part d = Some P.

(** Some drawing for part [P], of whatever game, is not completed and carries
    name [n]: what the older incompleteUsers collects. *)
Definition unfinished_by (ds : list Drawing) (P n : string) : Prop :=
  exists d, In d ds /\ player_part d = Some P
            /\ is_completed d = false /\ player_name d = Some n.

(** The three requests that save a game they looked up. *)
Definition saves_found_game (req : Request) : bool :=
  match req with
  | PUT_updateGameWithPlayer _ _ | PUT_updateGameStatus _ _ _ _
  | POST_validateJoinGame _ _ => true
  | _ => false
  end.

(** The requests that only read. *)
Definition is_GET (req : Request) : bool :=
  match req with
  | GET_incompleteUsers _ _ | GET_getDrawing _ _ _
  | GET_completedDrawings _ | GET_getGameData _ => true
  | _ => false
  end.

(** * Properties *)

(** ** The model layer *)

Lemma find_index_Some {A} (p : A -> bool) (l : list A) i x :
  find_index p l = Some (i, x) -> l !! i = Some x /\ p x = true.
Proof.
  revert i. induction l as [|y l IH]; intros i H; simpl in H.
  - discriminate.
  - destruct (p y) eqn:Hy.
    + injection H as <- <-. split; [reflexivity | exact Hy].
    + destruct (find_index p l) as [[j z]|] eqn:Hf; [|discriminate].
      injection H as <- <-. simpl. apply IH. reflexivity.
Qed.

Lemma first_game_Some code gs i g :
  first_game code gs = Some (i, g) -> gs !! i = Some g /\ g_game_code g = code.
Proof.
  intros H. apply find_index_Some in H as [Hl Hp]. split; [exact Hl|].
  unfold str_eqb in Hp. apply bool_decide_eq_true in Hp. exact Hp.
Qed.

Lemma holds_Some {A} `{EqDecision A} (v : A) (have : option A) :
  holds (Some v) have = true <-> have = Some v.
Proof. simpl. apply bool_decide_eq_true. Qed.

Lemma matches_spec f d :
  matches f d = true <->
  holds (f_game_code f) (game_code d) = true
  /\ holds (f_player_name f) (player_name d) = true
  /\ holds (f_player_part f) (player_part d) = true
  /\ holds (f_is_completed f) (Some (is_completed d)) = true.
Proof. unfold matches. rewrite !andb_true_iff. tauto. Qed.

Lemma includes_spec names n :
  includes names n = true <-> In (Some n) names.
Proof.
  unfold includes. rewrite List.existsb_exists. split.
  - intros (x & Hin & Hx). apply bool_decide_eq_true in Hx. subst x. exact Hin.
  - intros Hin. exists (Some n). split; [exact Hin|]. apply bool_decide_eq_true. reflexivity.
Qed.

(** ** incompleteUsers *)

Lemma completedPlayerNames_spec ds c P n :
  includes (completedPlayerNames ds c P) n = true <-> completed_by ds c P n.
Proof.
  rewrite includes_spec. unfold completedPlayerNames, completed_by.
  rewrite List.in_map_iff. split.
  - intros (d & Hn & Hd). apply List.filter_In in Hd as [Hin Hm].
    apply matches_spec in Hm as (Hc & _ & Hp & Hk). simpl in Hc, Hp, Hk.
    apply bool_decide_eq_true in Hc, Hp, Hk.
    exists d. repeat split; try assumption. congruence.
  - intros (d & Hin & Hc & Hp & Hk & Hn). exists d. split; [exact Hn|].
    apply List.filter_In. split; [exact Hin|].
    apply matches_spec. simpl. rewrite Hc, Hp, Hk.
    repeat split; apply bool_decide_eq_true; reflexivity.
Qed.

Lemma incompleteUsers_found s c P i G :
  first_game c (Games s) = Some (i, G) ->
  incompleteUsers c P s =
  (mkResponse 200
     (J_incompletePlayers
        (List.filter (fun n => negb (includes (completedPlayerNames (Drawings s) c P) n))
                     (map p_player_name (players G)))), s).
Proof.
  intros H. unfold incompleteUsers, try_catch, mbind, Route_bind, Game_findOne.
  rewrite H. reflexivity.
Qed.

Lemma incompleteUsers_not_found s c P :
  first_game c (Games s) = None ->
  incompleteUsers c P s = (mkResponse 404 (J_message "Game not found"), s).
Proof.
  intros H. unfold incompleteUsers, try_catch, mbind, Route_bind, Game_findOne.
  rewrite H. reflexivity.
Qed.

(** C1.  For the stored game [G] that [findOne] yields for the code (the first
    match), incompleteUsers answers 200 with the player_name values of [G]'s
    roster, in roster order and with repetitions kept, filtered by a test
    [keep] that rejects a name if and only if some drawing has that
    game_code, player_part [P], is_completed true and that player_name. *)
Theorem incompleteUsers_roster_minus_completed s c P i G :
  first_game c (Games s) = Some (i, G) ->
  exists keep : string -> bool,
    (forall n, keep n = false <-> completed_by (Drawings s) c P n)
    /\ incompleteUsers c P s =
       (mkResponse 200
          (J_incompletePlayers (List.filter keep (map p_player_name (players G)))), s).
Proof.
  intros H.
  exists (fun n => negb (includes (completedPlayerNames (Drawings s) c P) n)).
  split.
  - intros n. rewrite negb_false_iff. apply completedPlayerNames_spec.
  - apply incompleteUsers_found with (i := i). exact H.
Qed.

Example incompleteUsers_lobby_Hat :
  incompleteUsers "1000" "Hat" lobby_store
  = (mkResponse 200 (J_incompletePlayers ["test"]), lobby_store).
Proof. vm_compute. reflexivity. Qed.

Example incompleteUsers_lobby_Head :
  incompleteUsers "1000" "Head" lobby_store
  = (mkResponse 200 (J_incompletePlayers ["ann"; "ann"]), lobby_store).
Proof. vm_compute. reflexivity. Qed.

Lemma incompleteUsers_roster_minus_completed_witness :
  first_game "1000" (Games lobby_store) = Some (0%nat, lobby)
  /\ exists keep : string -> bool,
       (forall n, keep n = false <-> completed_by (Drawings lobby_store) "1000" "Hat" n)
       /\ incompleteUsers "1000" "Hat" lobby_store =
          (mkResponse 200
             (J_incompletePlayers (List.filter keep (map p_player_name (players lobby)))),
           lobby_store).
Proof.
  split.
  - reflexivity.
  - apply (incompleteUsers_roster_minus_completed lobby_store "1000" "Hat" 0%nat lobby).
    reflexivity.
Defined.

Lemma unfinished_not_matched c P d :
  is_completed d = false ->
  matches (mkDrawingFilter (Some c) None (Some P) (Some true)) d = false.
Proof.
  intros H. unfold matches. simpl. rewrite H.
  rewrite (bool_decide_eq_false_2 (Some false = Some true)) by discriminate.
  apply andb_false_r.
Qed.

Lemma completedPlayerNames_skip_unfinished l1 d l2 c P :
  is_completed d = false ->
  completedPlayerNames (l1 ++ d :: l2) c P = completedPlayerNames (l1 ++ l2) c P.
Proof.
  intros H. unfold completedPlayerNames.
  rewrite !List.filter_app. simpl.
  rewrite (unfinished_not_matched c P d H). reflexivity.
Qed.

(** C2.  A roster player [n] whose only drawing for part [P] is [d], with
    is_completed false, is in the answer of incompleteUsers, and the answer
    is the one the route gives when [d] is not in the collection at all. *)
Theorem incompleteUsers_unfinished_as_absent gs l1 d l2 c P i G n :
  first_game c gs = Some (i, G) ->
  In n (map p_player_name (players G)) ->
  player_name d = Some n ->
  player_part d = Some P ->
  is_completed d = false ->
  (forall d', In d' (l1 ++ l2) -> ~ (player_name d' = Some n /\ player_part d' = Some P)) ->
  exists out,
    incompleteUsers c P (mkStore gs (l1 ++ d :: l2))
    = (mkResponse 200 (J_incompletePlayers out), mkStore gs (l1 ++ d :: l2))
    /\ In n out
    /\ incompleteUsers c P (mkStore gs (l1 ++ l2))
       = (mkResponse 200 (J_incompletePlayers out), mkStore gs (l1 ++ l2)).
Proof.
  intros Hg Hn Hname Hpart Hdone Honly.
  eexists. split; [|split].
  - rewrite (incompleteUsers_found _ c P i G) by exact Hg. simpl.
    rewrite completedPlayerNames_skip_unfinished by exact Hdone. reflexivity.
  - apply List.filter_In. split; [exact Hn|].
    apply negb_true_iff. apply not_true_is_false. intros Hc.
    apply completedPlayerNames_spec in Hc as (d' & Hin & _ & Hp & _ & Hnm).
    apply (Honly d' Hin). split; assumption.
  - rewrite (incompleteUsers_found _ c P i G) by exact Hg. reflexivity.
Qed.

Lemma incompleteUsers_unfinished_as_absent_witness :
  let d := drawing_of (Some "1000") "test" "Hat" false in
  let l1 := [drawing_of (Some "1000") "ann" "Hat" true] in
  let l2 := [drawing_of (Some "1000") "test" "Head" true] in
  exists out,
    incompleteUsers "1000" "Hat" (mkStore [lobby] (l1 ++ d :: l2))
    = (mkResponse 200 (J_incompletePlayers out), mkStore [lobby] (l1 ++ d :: l2))
    /\ In "test" out
    /\ incompleteUsers "1000" "Hat" (mkStore [lobby] (l1 ++ l2))
       = (mkResponse 200 (J_incompletePlayers out), mkStore [lobby] (l1 ++ l2)).
Proof.
  intros d l1 l2.
  apply (incompleteUsers_unfinished_as_absent [lobby] l1 d l2 "1000" "Hat" 0%nat lobby "test").
  - reflexivity.
  - simpl. right. left. reflexivity.
  - reflexivity.
  - reflexivity.
  - reflexivity.
  - intros d' [<- | [<- | []]]; intros [Hn Hp]; simpl in Hn, Hp; discriminate.
Defined.

Lemma incompleteUsers_store s c P : snd (incompleteUsers c P s) = s.
Proof.
  destruct (first_game c (Games s)) as [[i G]|] eqn:Hg.
  - rewrite (incompleteUsers_found s c P i G Hg). reflexivity.
  - rewrite (incompleteUsers_not_found s c P Hg). reflexivity.
Qed.

(** C8.  incompleteUsers gives back both collections as it found them, and
    asking again on the resulting collections gives the same answer. *)
Theorem incompleteUsers_reads_only s c P :
  Games (snd (incompleteUsers c P s)) = Games s
  /\ Drawings (snd (incompleteUsers c P s)) = Drawings s
  /\ incompleteUsers c P (snd (incompleteUsers c P s)) = incompleteUsers c P s.
Proof. rewrite incompleteUsers_store. repeat split. Qed.

(** ** completedDrawings *)

Lemma completedDrawings_any_code c c' s :
  completedDrawings c s = completedDrawings c' s.
Proof. reflexivity. Qed.

Lemma completedDrawings_answer c s :
  completedDrawings c s =
  (match List.filter is_completed (Drawings s) with
   | [] => mkResponse 404 (J_message "No completed drawings found")
   | ds => mkResponse 200 (J_drawings ds)
   end, s).
Proof.
  unfold completedDrawings, try_catch, mbind, Route_bind, Drawing_find.
  assert (E : List.filter (matches (mkDrawingFilter None None None (Some true))) (Drawings s)
              = List.filter is_completed (Drawings s)).
  { apply List.filter_ext. intros d. unfold matches. simpl.
    destruct (is_completed d); reflexivity. }
  rewrite E. destruct (List.filter is_completed (Drawings s)); reflexivity.
Qed.

(** C3.  The route never uses its game_code: after one finished drawing was
    sent in for game 2000 and none for game 1000, GET /completedDrawings/1000
    answers 200 with that drawing, where the list of game 1000 is empty. *)
Theorem completedDrawings_of_another_game :
  completedDrawings "1000" after_hat_2000
  = (mkResponse 200 (J_drawings [Drawing_new 7 finished_hat_2000]), after_hat_2000)
  /\ dd_game_code finished_hat_2000 = Some "2000".
Proof. split; vm_compute; reflexivity. Qed.

(** ** validateJoinGame *)

Lemma validateJoinGame_started s c pd i G :
  first_game c (Games s) = Some (i, G) ->
  start_game G = true ->
  validateJoinGame c pd s = (mkResponse 400 (J_canJoin "Room already started" false), s).
Proof.
  intros Hg Hs. unfold validateJoinGame. run_route. rewrite Hg, Hs. reflexivity.
Qed.

Lemma validateJoinGame_closed s c pd i G :
  first_game c (Games s) = Some (i, G) ->
  start_game G = false ->
  join G = false ->
  validateJoinGame c pd s
  = (mkResponse 400 (J_canJoin "Room is not accepting new players" false), s).
Proof.
  intros Hg Hs Hj. unfold validateJoinGame. run_route. rewrite Hg, Hs, Hj. reflexivity.
Qed.

Lemma validateJoinGame_open s c p i G :
  first_game c (Games s) = Some (i, G) ->
  start_game G = false ->
  join G = true ->
  validateJoinGame c (Some p) s
  = (let G' := push_player (as_player c p) G in
     (mkResponse 200
        (J_joined "User joined the game successfully" true
           (mkJoinedGame (g_game_code G') (number_of_players G')
                         (games_Parts G') (players G'))),
      mkStore (<[i := G']> (Games s)) (Drawings s))).
Proof.
  intros Hg Hs Hj. unfold validateJoinGame. run_route. rewrite Hg, Hs, Hj. reflexivity.
Qed.

Lemma find_index_insert {A} (p : A -> bool) (l : list A) i x y :
  find_index p l = Some (i, x) -> p y = true ->
  find_index p (<[i := y]> l) = Some (i, y).
Proof.
  revert i. induction l as [|z l IH]; intros i H Hy; simpl in H.
  - discriminate.
  - destruct (p z) eqn:Hz.
    + injection H as <- <-. simpl. rewrite Hy. reflexivity.
    + destruct (find_index p l) as [[j w]|] eqn:Hf; [|discriminate].
      injection H as <- <-. simpl. rewrite Hz.
      rewrite (IH j eq_refl Hy). reflexivity.
Qed.

Lemma first_game_saved c gs i g g' :
  first_game c gs = Some (i, g) -> g_game_code g' = g_game_code g ->
  first_game c (<[i := g']> gs) = Some (i, g').
Proof.
  intros H Hc. unfold first_game in *.
  apply find_index_insert with (x := g); [exact H|].
  apply first_game_Some in H as [_ Hg].
  unfold str_eqb. apply bool_decide_eq_true. congruence.
Qed.

(** C4.  When the game found for the code is started, or is closed to joins,
    validateJoinGame answers 400 with canJoin false and both collections, so
    the Game document with every field of it, are what they were. *)
Theorem validateJoinGame_refuses s c pd i G :
  first_game c (Games s) = Some (i, G) ->
  start_game G = true \/ join G = false ->
  exists message s',
    validateJoinGame c pd s = (mkResponse 400 (J_canJoin message false), s')
    /\ s' = s
    /\ first_game c (Games s') = Some (i, G).
Proof.
  intros Hg Hor.
  destruct (start_game G) eqn:Hs.
  - exists "Room already started", s. split; [|split]; try auto.
    apply validateJoinGame_started with (i := i) (G := G); assumption.
  - destruct Hor as [Hor | Hj]; [discriminate|].
    exists "Room is not accepting new players", s. split; [|split]; try auto.
    apply validateJoinGame_closed with (i := i) (G := G); assumption.
Qed.

(** C9.  The started flag is tested first: for a game that is both started
    and closed the 400 answer says "Room already started". *)
Theorem validateJoinGame_started_before_closed s c pd i G :
  first_game c (Games s) = Some (i, G) ->
  start_game G = true ->
  join G = false ->
  validateJoinGame c pd s = (mkResponse 400 (J_canJoin "Room already started" false), s).
Proof.
  intros Hg Hs _. apply validateJoinGame_started with (i := i) (G := G); assumption.
Qed.

(** C5.  For a game that is open and not started, validateJoinGame with a
    player in the body answers 200 with canJoin true; the game found for the
    code afterwards has the old roster with the submitted player at the end,
    number_of_players equal to the length of that roster, and its other
    fields as before.  The entry at the end has the name, number, image, body
    parts and steps of the submitted player, the game code of the request,
    and the submitted body images, or none when the body has no such field. *)
Theorem validateJoinGame_joins s c p i G :
  first_game c (Games s) = Some (i, G) ->
  start_game G = false ->
  join G = true ->
  exists G' s',
    validateJoinGame c (Some p) s
    = (mkResponse 200
         (J_joined "User joined the game successfully" true
            (mkJoinedGame c (number_of_players G') (games_Parts G) (players G'))), s')
    /\ first_game c (Games s') = Some (i, G')
    /\ Games s' = <[i := G']> (Games s)
    /\ Drawings s' = Drawings s
    /\ players G' = (players G ++ [as_player c p])%list
    /\ players G'
       = (players G ++
          [mkPlayer c (pd_player_name p) (pd_player_number p) (pd_player_image p)
                    (pd_player_body_parts_with_player_names p)
                    (match pd_player_body_images p with
                     | Some images => images
                     | None => []
                     end)
                    (pd_player_current_step p)])%list
    /\ p_player_name (as_player c p) = pd_player_name p
    /\ number_of_players G' = Z.of_nat (length (players G'))
    /\ set_number_of_players (number_of_players G) (set_players (players G) G') = G.
Proof.
  intros Hg Hs Hj.
  exists (push_player (as_player c p) G).
  exists (mkStore (<[i := push_player (as_player c p) G]> (Games s)) (Drawings s)).
  destruct (first_game_Some _ _ _ _ Hg) as [_ Hcode].
  split; [|split; [|repeat split]].
  - rewrite (validateJoinGame_open s c p i G Hg Hs Hj). simpl. rewrite Hcode. reflexivity.
  - simpl. apply first_game_saved with (g := G); [exact Hg | reflexivity].
  - destruct G; reflexivity.
Qed.

Lemma validateJoinGame_refuses_witness :
  first_game "1000" [closed_lobby] = Some (0%nat, closed_lobby)
  /\ join closed_lobby = false
  /\ exists message s',
    validateJoinGame "1000" (Some bob) (mkStore [closed_lobby] [])
    = (mkResponse 400 (J_canJoin message false), s')
    /\ s' = mkStore [closed_lobby] []
    /\ first_game "1000" (Games s') = Some (0%nat, closed_lobby).
Proof.
  split; [reflexivity|]. split; [reflexivity|].
  apply (validateJoinGame_refuses (mkStore [closed_lobby] []) "1000" (Some bob)
                                  0%nat closed_lobby).
  - reflexivity.
  - right. reflexivity.
Defined.

Lemma validateJoinGame_started_before_closed_witness :
  start_game started_closed_lobby = true
  /\ join started_closed_lobby = false
  /\ validateJoinGame "1000" (Some bob) (mkStore [started_closed_lobby] [])
  = (mkResponse 400 (J_canJoin "Room already started" false),
     mkStore [started_closed_lobby] []).
Proof.
  split; [reflexivity|]. split; [reflexivity|].
  apply (validateJoinGame_started_before_closed
           (mkStore [started_closed_lobby] []) "1000" (Some bob)
           0%nat started_closed_lobby); reflexivity.
Defined.

Lemma validateJoinGame_joins_witness :
  start_game open_lobby = false
  /\ join open_lobby = true
  /\ exists G' s',
    validateJoinGame "1000" (Some bob) (mkStore [open_lobby] [])
    = (mkResponse 200
         (J_joined "User joined the game successfully" true
            (mkJoinedGame "1000" (number_of_players G') (games_Parts open_lobby)
                          (players G'))), s')
    /\ first_game "1000" (Games s') = Some (0%nat, G')
    /\ Games s' = <[0%nat := G']> (Games (mkStore [open_lobby] []))
    /\ Drawings s' = Drawings (mkStore [open_lobby] [])
    /\ players G' = (players open_lobby ++ [as_player "1000" bob])%list
    /\ players G'
       = (players open_lobby ++
          [mkPlayer "1000" (pd_player_name bob) (pd_player_number bob)
                    (pd_player_image bob)
                    (pd_player_body_parts_with_player_names bob)
                    (match pd_player_body_images bob with
                     | Some images => images
                     | None => []
                     end)
                    (pd_player_current_step bob)])%list
    /\ p_player_name (as_player "1000" bob) = pd_player_name bob
    /\ number_of_players G' = Z.of_nat (length (players G'))
    /\ set_number_of_players (number_of_players open_lobby)
         (set_players (players open_lobby) G') = open_lobby.
Proof.
  split; [reflexivity|]. split; [reflexivity|].
  apply (validateJoinGame_joins (mkStore [open_lobby] []) "1000" bob 0%nat open_lobby);
    reflexivity.
Defined.

Example validateJoinGame_open_lobby :
  validateJoinGame "1000" (Some bob) (mkStore [open_lobby] [])
  = (mkResponse 200
       (J_joined "User joined the game successfully" true
          (mkJoinedGame "1000" 2 ["Hat"; "Head"]
             [player_named "1000" "test";
              mkPlayer "1000" "bob" 7 "" ["Hat-"; "Head-"] [] [0; 1]])),
     mkStore [mkGame "1000" ["Hat"; "Head"]
                [player_named "1000" "test";
                 mkPlayer "1000" "bob" 7 "" ["Hat-"; "Head-"] [] [0; 1]]
                2 true false 0 0] []).
Proof. vm_compute. reflexivity. Qed.

(** Without [player_data] the object literal throws after the two gates,
    and the catch block answers 500. *)
Example validateJoinGame_without_player_data :
  validateJoinGame "1000" None (mkStore [open_lobby] [])
  = (mkResponse 500
       (J_message "Cannot read properties of undefined (reading 'player_body_images')"),
     mkStore [open_lobby] []).
Proof. vm_compute. reflexivity. Qed.

(** ** What a request does to the games collection *)

Lemma serve_Games now req s :
  Games (snd (serve now req s)) = games_after now req (Games s).
Proof.
  destruct req as [b|b|c P|c n P|c|c [p|]|c sg j t|c [p|]|c]; simpl.
  - reflexivity.
  - reflexivity.
  - rewrite incompleteUsers_store. reflexivity.
  - unfold getDrawing. run_route.
    destruct (List.find _ (Drawings s)); reflexivity.
  - rewrite (completedDrawings_answer c s). reflexivity.
  - unfold updateGameWithPlayer. run_route.
    destruct (first_game c (Games s)) as [[i g]|]; reflexivity.
  - unfold updateGameWithPlayer. run_route.
    destruct (first_game c (Games s)) as [[i g]|]; reflexivity.
  - unfold updateGameStatus. run_route.
    destruct (first_game c (Games s)) as [[i g]|]; reflexivity.
  - unfold validateJoinGame. run_route.
    destruct (first_game c (Games s)) as [[i g]|]; [|reflexivity].
    destruct (start_game g); [reflexivity|].
    destruct (join g); reflexivity.
  - unfold validateJoinGame. run_route.
    destruct (first_game c (Games s)) as [[i g]|]; [|reflexivity].
    destruct (start_game g); [reflexivity|].
    destruct (join g); reflexivity.
  - unfold getGameData. run_route.
    destruct (first_game c (Games s)) as [[i g]|]; reflexivity.
Qed.

Lemma players_with_status sg j t g : players (with_status sg j t g) = players g.
Proof. destruct sg, j, t; reflexivity. Qed.

Lemma number_of_players_with_status sg j t g :
  number_of_players (with_status sg j t g) = number_of_players g.
Proof. destruct sg, j, t; reflexivity. Qed.

Lemma players_push_player p g : players (push_player p g) = (players g ++ [p])%list.
Proof. reflexivity. Qed.

Lemma lookup_saved (gs : list Game) i g g' :
  gs !! i = Some g -> <[i := g']> gs !! i = Some g'.
Proof. intros H. apply list_lookup_insert_eq. eapply lookup_lt_Some. exact H. Qed.

(** C6, as the code has it.  Whatever the request, a started game stays where
    it is in the collection, and its roster is unchanged, except when the
    request is updateGameWithPlayer with a player and the game is the one
    found for its code: then the player is appended, started or not. *)
Theorem started_roster_after_request s now req i g :
  Games s !! i = Some g ->
  start_game g = true ->
  exists g',
    Games (snd (serve now req s)) !! i = Some g'
    /\ match req with
       | PUT_updateGameWithPlayer c (Some p) =>
           if bool_decide (fst <$> first_game c (Games s) = Some i)
           then players g' = (players g ++ [as_player c p])%list
           else players g' = players g
       | _ => players g' = players g
       end.
Proof.
  intros Hi Hs. rewrite serve_Games.
  destruct req as [b|b|c P|c n P|c|c [p|]|c sg j t|c [p|]|c]; simpl;
    try (exists g; split; [exact Hi | reflexivity]).
  - exists g. split; [|reflexivity]. apply lookup_app_l_Some. exact Hi.
  - destruct (first_game c (Games s)) as [[k gk]|] eqn:Hf; simpl.
    + destruct (first_game_Some _ _ _ _ Hf) as [Hk _].
      destruct (decide (k = i)) as [->|Hne].
      * assert (gk = g) as -> by congruence.
        rewrite bool_decide_eq_true_2 by reflexivity.
        exists (push_player (as_player c p) g). split.
        -- apply lookup_saved with (g := g). exact Hi.
        -- apply players_push_player.
      * rewrite bool_decide_eq_false_2 by congruence.
        exists g. split; [|reflexivity].
        rewrite list_lookup_insert_ne by exact Hne. exact Hi.
    + exists g. split; [exact Hi|].
      first [reflexivity | rewrite bool_decide_eq_false_2 by discriminate; reflexivity].
  - destruct (first_game c (Games s)) as [[k gk]|] eqn:Hf.
    + destruct (first_game_Some _ _ _ _ Hf) as [Hk _].
      destruct (decide (k = i)) as [->|Hne].
      * assert (gk = g) as -> by congruence.
        exists (with_status sg j t g). split.
        -- apply lookup_saved with (g := g). exact Hi.
        -- apply players_with_status.
      * exists g. split; [|reflexivity].
        rewrite list_lookup_insert_ne by exact Hne. exact Hi.
    + exists g. split; [exact Hi | reflexivity].
  - destruct (first_game c (Games s)) as [[k gk]|] eqn:Hf.
    + destruct (first_game_Some _ _ _ _ Hf) as [Hk _].
      destruct (decide (k = i)) as [->|Hne].
      * assert (gk = g) as -> by congruence.
        rewrite Hs. simpl. exists g. split; [exact Hi | reflexivity].
      * destruct (start_game gk || negb (join gk)).
        -- exists g. split; [exact Hi | reflexivity].
        -- exists g. split; [|reflexivity].
           rewrite list_lookup_insert_ne by exact Hne. exact Hi.
    + exists g. split; [exact Hi | reflexivity].
Qed.

Lemma scenario_started_reachable : reachable_from empty_store scenario_started.
Proof.
  unfold reachable_from, scenario_started, scenario_joined, scenario_created.
  repeat (apply reach_serve; [|exact I]). apply reach_start.
Qed.

Example scenario_started_store : scenario_started = mkStore [started_1000] [].
Proof. vm_compute. reflexivity. Qed.

Example scenario_getGameData :
  fst (getGameData "1000" scenario_created)
  = mkResponse 200 (J_message_game "Game data retrieved successfully"
                      (Game_new 100 body_1000)).
Proof. vm_compute. reflexivity. Qed.

Example scenario_second_player_refused :
  validateJoinGame "1000" (Some bob) scenario_started
  = (mkResponse 400 (J_canJoin "Room already started" false), scenario_started).
Proof. vm_compute. reflexivity. Qed.

(** C6 as stated fails: in the started lobby of the scenario, which the API
    reaches from the empty collections, updateGameWithPlayer puts "bob" on
    the roster. *)
Lemma updateGameWithPlayer_extends_started_roster :
  reachable_from empty_store scenario_started
  /\ Games scenario_started !! 0%nat = Some started_1000
  /\ start_game started_1000 = true
  /\ map p_player_name (players started_1000) = ["test"]
  /\ (map p_player_name ∘ players)
       <$> Games (snd (serve 103 (PUT_updateGameWithPlayer "1000" (Some bob))
                             scenario_started)) !! 0%nat
     = Some ["test"; "bob"].
Proof.
  split; [exact scenario_started_reachable|].
  repeat split; vm_compute; reflexivity.
Qed.

Lemma started_roster_after_request_witness :
  Games scenario_started !! 0%nat = Some started_1000
  /\ start_game started_1000 = true
  /\ exists g',
       Games (snd (serve 103 (POST_validateJoinGame "1000" (Some bob)) scenario_started))
         !! 0%nat = Some g'
       /\ players g' = players started_1000.
Proof.
  split; [reflexivity|]. split; [reflexivity|].
  apply (started_roster_after_request scenario_started 103
           (POST_validateJoinGame "1000" (Some bob)) 0%nat started_1000);
    reflexivity.
Defined.

(** ** number_of_players *)

Lemma push_player_counted p g : counted (push_player p g).
Proof. reflexivity. Qed.

Lemma with_status_counted sg j t g : counted g -> counted (with_status sg j t g).
Proof.
  unfold counted. rewrite players_with_status, number_of_players_with_status. tauto.
Qed.

(** After a request with a counted body, a game is counted or has the roster
    and the number_of_players that the game at its place had before. *)
Lemma counted_or_kept now req gs i g' :
  counted_body req ->
  games_after now req gs !! i = Some g' ->
  counted g'
  \/ exists g, gs !! i = Some g /\ players g' = players g
               /\ number_of_players g' = number_of_players g.
Proof.
  intros Hb H.
  assert (Hkeep : forall l : list Game, l !! i = Some g' ->
            l = gs ->
            counted g' \/ exists g, gs !! i = Some g /\ players g' = players g
                          /\ number_of_players g' = number_of_players g).
  { intros l Hl ->. right. exists g'. auto. }
  assert (Hpush : forall k p gk, <[k := push_player p gk]> gs !! i = Some g' ->
            counted g' \/ exists g, gs !! i = Some g /\ players g' = players g
                          /\ number_of_players g' = number_of_players g).
  { intros k p gk Hl. apply list_lookup_insert_Some in Hl as [(_ & <- & _)|[_ Hl]].
    - left. apply push_player_counted.
    - right. exists g'. auto. }
  destruct req as [b|b|c P|c n P|c|c [p|]|c sg j t|c [p|]|c]; simpl in H, Hb;
    try (apply (Hkeep _ H eq_refl)).
  - apply lookup_snoc_Some in H as [[_ H]|[_ <-]].
    + right. exists g'. auto.
    + left. exact Hb.
  - destruct (first_game c gs) as [[k gk]|]; [|apply (Hkeep _ H eq_refl)].
    apply (Hpush _ _ _ H).
  - destruct (first_game c gs) as [[k gk]|] eqn:Hf; [|apply (Hkeep _ H eq_refl)].
    destruct (first_game_Some _ _ _ _ Hf) as [Hk _].
    apply list_lookup_insert_Some in H as [(-> & <- & _)|[_ Hl]].
    + right. exists gk. split; [exact Hk|].
      rewrite players_with_status, number_of_players_with_status. auto.
    + right. exists g'. auto.
  - destruct (first_game c gs) as [[k gk]|]; [|apply (Hkeep _ H eq_refl)].
    destruct (start_game gk || negb (join gk)); [apply (Hkeep _ H eq_refl)|].
    apply (Hpush _ _ _ H).
Qed.

(** C7, as the code has it.  storeGameState stores the number_of_players it
    is sent, updateGameWithPlayer and validateJoinGame set it to the length of
    the roster they extended, and nothing else writes either field: in the
    collections reached from the empty ones by requests whose storeGameState
    bodies are counted, every game has number_of_players equal to the length
    of players. *)
Theorem number_of_players_is_roster_length s i g :
  reachable_via counted_body empty_store s ->
  Games s !! i = Some g ->
  number_of_players g = Z.of_nat (length (players g)).
Proof.
  intros Hr. revert i g.
  induction Hr as [|s now req Hr IH Hb]; intros i g Hg.
  - simpl in Hg. rewrite lookup_nil in Hg. discriminate.
  - rewrite serve_Games in Hg.
    destruct (counted_or_kept now req (Games s) i g Hb Hg)
      as [Hc | (g0 & Hg0 & Hp & Hn)].
    + exact Hc.
    + rewrite Hp, Hn. apply (IH i g0 Hg0).
Qed.

(** C7 as stated fails: storeGameState keeps a number_of_players of 5 next to
    an empty players array, in collections the API reaches from the empty ones. *)
Lemma storeGameState_keeps_submitted_count :
  let s := snd (serve 100 (POST_storeGameState miscounted_body) empty_store) in
  reachable_from empty_store s
  /\ exists g, Games s !! 0%nat = Some g
               /\ number_of_players g = 5
               /\ Z.of_nat (length (players g)) = 0
               /\ number_of_players g <> Z.of_nat (length (players g)).
Proof.
  split.
  - apply reach_serve; [apply reach_start | exact I].
  - eexists. split; [reflexivity|]. repeat split. discriminate.
Qed.

Lemma number_of_players_is_roster_length_witness :
  Games scenario_started !! 0%nat = Some started_1000
  /\ number_of_players started_1000 = Z.of_nat (length (players started_1000)).
Proof.
  split; [reflexivity|].
  apply (number_of_players_is_roster_length scenario_started 0%nat started_1000).
  - unfold scenario_started, scenario_joined, scenario_created.
    apply reach_serve; [|exact I].
    apply reach_serve; [|exact I].
    apply reach_serve; [apply reach_start | reflexivity].
  - reflexivity.
Defined.

(** ** Drawings sent in through updateDrawingStatus *)

Lemma Drawing_new_unflagged now b :
  dd_is_completed b = None -> is_completed (Drawing_new now b) = false.
Proof. intros H. simpl. rewrite H. reflexivity. Qed.

Lemma Drawing_new_game_code now b : game_code (Drawing_new now b) = None.
Proof. reflexivity. Qed.

Lemma serve_Drawings now req s :
  Drawings (snd (serve now req s)) =
  match req with
  | POST_updateDrawingStatus b => (Drawings s ++ [Drawing_new now b])%list
  | _ => Drawings s
  end.
Proof.
  destruct req as [b|b|c P|c n P|c|c [p|]|c sg j t|c [p|]|c]; simpl;
    try reflexivity.
  - rewrite incompleteUsers_store. reflexivity.
  - unfold getDrawing. run_route. destruct (List.find _ (Drawings s)); reflexivity.
  - rewrite (completedDrawings_answer c s). reflexivity.
  - unfold updateGameWithPlayer. run_route.
    destruct (first_game c (Games s)) as [[i g]|]; reflexivity.
  - unfold updateGameWithPlayer. run_route.
    destruct (first_game c (Games s)) as [[i g]|]; reflexivity.
  - unfold updateGameStatus. run_route.
    destruct (first_game c (Games s)) as [[i g]|]; reflexivity.
  - unfold validateJoinGame. run_route.
    destruct (first_game c (Games s)) as [[i g]|]; [|reflexivity].
    destruct (start_game g); [reflexivity|]. destruct (join g); reflexivity.
  - unfold validateJoinGame. run_route.
    destruct (first_game c (Games s)) as [[i g]|]; [|reflexivity].
    destruct (start_game g); [reflexivity|]. destruct (join g); reflexivity.
  - unfold getGameData. run_route.
    destruct (first_game c (Games s)) as [[i g]|]; reflexivity.
Qed.

(** A drawing sent in without is_completed changes no answer of incompleteUsers. *)
Lemma unflagged_drawing_keeps_incompleteUsers now b s c P :
  dd_is_completed b = None ->
  fst (incompleteUsers c P (snd (updateDrawingStatus now b s)))
  = fst (incompleteUsers c P s).
Proof.
  intros Hb.
  change (snd (updateDrawingStatus now b s))
    with (mkStore (Games s) (Drawings s ++ [Drawing_new now b])).
  destruct (first_game c (Games s)) as [[i G]|] eqn:Hg.
  - rewrite (incompleteUsers_found _ c P i G) by exact Hg.
    rewrite (incompleteUsers_found s c P i G) by exact Hg. simpl.
    rewrite (completedPlayerNames_skip_unfinished (Drawings s) (Drawing_new now b) [] c P)
      by (apply Drawing_new_unflagged; exact Hb).
    rewrite app_nil_r. reflexivity.
  - rewrite !incompleteUsers_not_found by exact Hg. reflexivity.
Qed.

(** No drawing that the API stored carries a game_code. *)
Lemma served_drawings_without_game_code s :
  reachable_from empty_store s ->
  forall d, In d (Drawings s) -> game_code d = None.
Proof.
  intros Hr. induction Hr as [|s now req Hr IH _]; intros d Hd.
  - destruct Hd.
  - rewrite serve_Drawings in Hd.
    destruct req; try (apply IH; exact Hd).
    apply in_app_or in Hd as [Hd | [<- | []]]; [apply IH; exact Hd | reflexivity].
Qed.

Lemma find_none_if {A} (p : A -> bool) (l : list A) :
  (forall x, In x l -> p x = false) -> List.find p l = None.
Proof.
  induction l as [|x l IH]; intros H; simpl; [reflexivity|].
  rewrite (H x (or_introl eq_refl)). apply IH. intros y Hy. apply H. right. exact Hy.
Qed.

Lemma game_code_filter_needs_field f c d :
  f_game_code f = Some c -> game_code d = None -> matches f d = false.
Proof.
  intros Hf Hd. unfold matches, holds at 1. rewrite Hf, Hd.
  rewrite (bool_decide_eq_false_2 (None = Some c)) by discriminate. reflexivity.
Qed.

(** So getDrawing, which filters on game_code, finds none of them. *)
Lemma getDrawing_of_served_drawings s c n P :
  reachable_from empty_store s ->
  getDrawing c n P s = (mkResponse 404 (J_message "Drawing not found"), s).
Proof.
  intros Hr. unfold getDrawing. run_route.
  rewrite find_none_if; [reflexivity|].
  intros d Hd. apply game_code_filter_needs_field with (c := c); [reflexivity|].
  apply (served_drawings_without_game_code s Hr d Hd).
Qed.

(** And incompleteUsers, which filters on game_code too, sees none as completed. *)
Lemma incompleteUsers_of_served_drawings s c P i G :
  reachable_from empty_store s ->
  first_game c (Games s) = Some (i, G) ->
  incompleteUsers c P s
  = (mkResponse 200 (J_incompletePlayers (map p_player_name (players G))), s).
Proof.
  intros Hr Hg. rewrite (incompleteUsers_found s c P i G Hg).
  assert (E : completedPlayerNames (Drawings s) c P = []).
  { unfold completedPlayerNames.
    assert (F : forall l : list Drawing, (forall d, In d l -> game_code d = None) ->
              List.filter (matches (mkDrawingFilter (Some c) None (Some P) (Some true))) l = []).
    { induction l as [|d l IH]; intros H; simpl; [reflexivity|].
      rewrite (game_code_filter_needs_field
                 (mkDrawingFilter (Some c) None (Some P) (Some true)) c d
                 eq_refl (H d (or_introl eq_refl))).
      apply IH. intros d' Hd'. apply H. right. exact Hd'. }
    rewrite F; [reflexivity|]. apply served_drawings_without_game_code. exact Hr. }
  rewrite E. simpl.
  rewrite List.forallb_filter_id; [reflexivity|].
  apply forallb_forall. intros; reflexivity.
Qed.

(** C10 on the scenario.  The drawing is stored with is_completed false and
    "test" is still listed for Hat, but the stored document has no game_code
    (drawingSchema has no such path), so GET /getDrawing/1000/test/Hat
    answers 404 and reports no is_completed for it. *)
Theorem unflagged_drawing_is_stored_unfinished_and_not_found :
  Drawings after_unflagged_hat = [Drawing_new 104 unflagged_hat]
  /\ is_completed (Drawing_new 104 unflagged_hat) = false
  /\ game_code (Drawing_new 104 unflagged_hat) = None
  /\ fst (incompleteUsers "1000" "Hat" after_unflagged_hat)
     = mkResponse 200 (J_incompletePlayers ["test"])
  /\ fst (getDrawing "1000" "test" "Hat" after_unflagged_hat)
     = mkResponse 404 (J_message "Drawing not found").
Proof. repeat split; vm_compute; reflexivity. Qed.

(** The finished Hat of the second scenario is stored without the game_code it
    was sent with, and incompleteUsers/1000/Hat goes on listing "test". *)
Example scenario_finished_hat :
  Drawings after_finished_hat = [Drawing_new 104 finished_hat_1000]
  /\ game_code (Drawing_new 104 finished_hat_1000) = None
  /\ is_completed (Drawing_new 104 finished_hat_1000) = true
  /\ fst (incompleteUsers "1000" "Hat" after_finished_hat)
     = mkResponse 200 (J_incompletePlayers ["test"]).
Proof. repeat split; vm_compute; reflexivity. Qed.

(** ** The older incompleteUsers *)

Lemma Legacy_incompleteUsers_found s c P i G :
  first_game c (Games s) = Some (i, G) ->
  Legacy.incompleteUsers c P s =
  (mkResponse 200
     (J_incompletePlayers
        (List.filter
           (fun n => negb (includes
              (map player_name
                 (List.filter (matches (mkDrawingFilter None None (Some P) (Some false)))
                              (Drawings s))) n))
           (map p_player_name (players G)))), s).
Proof.
  intros H. unfold Legacy.incompleteUsers. run_route. rewrite H. reflexivity.
Qed.

(** It takes "test" off the list for the unfinished Hat, and keeps "ann" on
    the list of [lobby_store] although her Hat is completed. *)
Example Legacy_incompleteUsers_unfinished :
  fst (Legacy.incompleteUsers "1000" "Hat" after_unflagged_hat)
  = mkResponse 200 (J_incompletePlayers []).
Proof. vm_compute. reflexivity. Qed.

Example Legacy_incompleteUsers_finished :
  fst (Legacy.incompleteUsers "1000" "Hat" lobby_store)
  = mkResponse 200 (J_incompletePlayers ["ann"; "test"; "ann"]).
Proof. vm_compute. reflexivity. Qed.


(** * Further properties of the routes *)

(** ** Looking a game up by its code *)

Lemma find_index_app_Some {A} (p : A -> bool) (l l' : list A) r :
  find_index p l = Some r -> find_index p (l ++ l') = Some r.
Proof.
  revert r. induction l as [|x l IH]; intros r H; simpl in *; [discriminate|].
  destruct (p x); [exact H|].
  destruct (find_index p l) as [[j z]|]; [|discriminate].
  rewrite (IH _ eq_refl). exact H.
Qed.

Lemma find_index_app_None {A} (p : A -> bool) (l : list A) x :
  find_index p l = None -> p x = true ->
  find_index p (l ++ [x]) = Some (length l, x).
Proof.
  intros H Hx. induction l as [|y l IH]; simpl in *.
  - rewrite Hx. reflexivity.
  - destruct (p y); [discriminate|].
    destruct (find_index p l) as [[j z]|]; [discriminate|].
    rewrite (IH eq_refl). reflexivity.
Qed.

(** Saving over a document one that the test [p] cannot tell from it leaves
    the place of the first hit where it was. *)
Lemma find_index_insert_same {A} (p : A -> bool) (l : list A) k x y :
  l !! k = Some x -> p y = p x ->
  find_index p (<[k := y]> l)
  = match find_index p l with
    | Some (i, z) => Some (i, if decide (i = k) then y else z)
    | None => None
    end.
Proof.
  revert k. induction l as [|a l IH]; intros k Hk Hp; [discriminate|].
  destruct k as [|k]; simpl in *.
  - injection Hk as ->. rewrite Hp. destruct (p x).
    + reflexivity.
    + destruct (find_index p l) as [[j z]|]; reflexivity.
  - destruct (p a).
    + reflexivity.
    + rewrite (IH k Hk Hp).
      destruct (find_index p l) as [[j z]|]; [|reflexivity].
      destruct (decide (j = k)) as [->|Hne].
      * rewrite decide_True by reflexivity. reflexivity.
      * rewrite decide_False by congruence. reflexivity.
Qed.

Lemma getGameData_found s c i G :
  first_game c (Games s) = Some (i, G) ->
  getGameData c s
  = (mkResponse 200 (J_message_game "Game data retrieved successfully" G), s).
Proof. intros H. unfold getGameData. run_route. rewrite H. reflexivity. Qed.

(** X1.  A game stored under a code that no stored game has is the game that
    getGameData hands back for the code: storeGameState answers 201 with the
    new document and getGameData answers 200 with the same document. *)
Theorem storeGameState_then_getGameData now b s :
  first_game (gd_game_code b) (Games s) = None ->
  fst (storeGameState now b s)
  = mkResponse 201 (J_message_game "Game state stored successfully" (Game_new now b))
  /\ getGameData (gd_game_code b) (snd (storeGameState now b s))
     = (mkResponse 200
          (J_message_game "Game data retrieved successfully" (Game_new now b)),
        snd (storeGameState now b s)).
Proof.
  intros H. split; [reflexivity|].
  apply getGameData_found with (i := length (Games s)).
  simpl. unfold first_game in *. apply find_index_app_None; [exact H|].
  unfold str_eqb. apply bool_decide_eq_true. reflexivity.
Qed.

Lemma storeGameState_then_getGameData_witness :
  first_game (gd_game_code body_1000) (Games empty_store) = None
  /\ fst (storeGameState 100 body_1000 empty_store)
     = mkResponse 201
         (J_message_game "Game state stored successfully" (Game_new 100 body_1000))
  /\ getGameData (gd_game_code body_1000) (snd (storeGameState 100 body_1000 empty_store))
     = (mkResponse 200
          (J_message_game "Game data retrieved successfully" (Game_new 100 body_1000)),
        snd (storeGameState 100 body_1000 empty_store)).
Proof.
  split; [reflexivity|].
  apply (storeGameState_then_getGameData 100 body_1000 empty_store). reflexivity.
Defined.

(** X2.  The code is not unique: storeGameState under a code that a stored
    game has answers 201 and stores a second document at the end, and
    getGameData goes on handing back the older game. *)
Theorem storeGameState_under_taken_code now b s i G :
  first_game (gd_game_code b) (Games s) = Some (i, G) ->
  status (fst (storeGameState now b s)) = 201
  /\ Games (snd (storeGameState now b s)) = (Games s ++ [Game_new now b])%list
  /\ getGameData (gd_game_code b) (snd (storeGameState now b s))
     = (mkResponse 200 (J_message_game "Game data retrieved successfully" G),
        snd (storeGameState now b s)).
Proof.
  intros H. split; [reflexivity|]. split; [reflexivity|].
  apply getGameData_found with (i := i).
  simpl. unfold first_game in *. apply find_index_app_Some. exact H.
Qed.

Lemma storeGameState_under_taken_code_witness :
  first_game (gd_game_code body_1000) (Games (mkStore [open_lobby] []))
  = Some (0%nat, open_lobby)
  /\ status (fst (storeGameState 100 body_1000 (mkStore [open_lobby] []))) = 201
  /\ Games (snd (storeGameState 100 body_1000 (mkStore [open_lobby] [])))
     = ([open_lobby] ++ [Game_new 100 body_1000])%list
  /\ getGameData (gd_game_code body_1000)
       (snd (storeGameState 100 body_1000 (mkStore [open_lobby] [])))
     = (mkResponse 200 (J_message_game "Game data retrieved successfully" open_lobby),
        snd (storeGameState 100 body_1000 (mkStore [open_lobby] []))).
Proof.
  split; [reflexivity|].
  apply (storeGameState_under_taken_code 100 body_1000 (mkStore [open_lobby] [])
           0%nat open_lobby).
  reflexivity.
Defined.

(** X3.  With no game under the code, each of the five routes that look the
    game up answers 404 "Game not found" and writes nothing; the roster routes
    do so before they look at [player_data]. *)
Theorem game_not_found s c P pd sg j t :
  first_game c (Games s) = None ->
  let not_found := (mkResponse 404 (J_message "Game not found"), s) in
  incompleteUsers c P s = not_found
  /\ getGameData c s = not_found
  /\ updateGameWithPlayer c pd s = not_found
  /\ updateGameStatus c sg j t s = not_found
  /\ validateJoinGame c pd s = not_found.
Proof.
  intros H not_found. subst not_found.
  unfold incompleteUsers, getGameData, updateGameWithPlayer, updateGameStatus,
         validateJoinGame.
  run_route. rewrite H. repeat split.
Qed.

Lemma game_not_found_witness :
  first_game "2000" (Games scenario_started) = None
  /\ let not_found := (mkResponse 404 (J_message "Game not found"), scenario_started) in
     incompleteUsers "2000" "Hat" scenario_started = not_found
     /\ getGameData "2000" scenario_started = not_found
     /\ updateGameWithPlayer "2000" None scenario_started = not_found
     /\ updateGameStatus "2000" (Some true) None None scenario_started = not_found
     /\ validateJoinGame "2000" None scenario_started = not_found.
Proof.
  split; [reflexivity|].
  apply (game_not_found scenario_started "2000" "Hat" None (Some true) None None).
  reflexivity.
Defined.

(** ** updateGameStatus *)

Lemma updateGameStatus_found s c sg j t i G :
  first_game c (Games s) = Some (i, G) ->
  updateGameStatus c sg j t s
  = (mkResponse 200
       (J_message_game "Game status updated successfully" (with_status sg j t G)),
     mkStore (<[i := with_status sg j t G]> (Games s)) (Drawings s)).
Proof. intros H. unfold updateGameStatus. run_route. rewrite H. reflexivity. Qed.

Lemma with_status_fields sg j t G :
  start_game (with_status sg j t G) = default (start_game G) sg
  /\ join (with_status sg j t G) = default (join G) j
  /\ drawing_time (with_status sg j t G) = default (drawing_time G) t
  /\ g_game_code (with_status sg j t G) = g_game_code G
  /\ games_Parts (with_status sg j t G) = games_Parts G
  /\ g_created_at (with_status sg j t G) = g_created_at G.
Proof. destruct sg, j, t; repeat split. Qed.

(** X4.  updateGameStatus writes the flags and the time that the body gives
    and keeps the ones it does not give; the game stays at its place, with its
    code, parts, roster, number_of_players and creation time, and the drawings
    are not touched. *)
Theorem updateGameStatus_assigns_given_fields s c sg j t i G :
  first_game c (Games s) = Some (i, G) ->
  exists G',
    updateGameStatus c sg j t s
    = (mkResponse 200 (J_message_game "Game status updated successfully" G'),
       mkStore (<[i := G']> (Games s)) (Drawings s))
    /\ start_game G' = default (start_game G) sg
    /\ join G' = default (join G) j
    /\ drawing_time G' = default (drawing_time G) t
    /\ g_game_code G' = g_game_code G
    /\ games_Parts G' = games_Parts G
    /\ players G' = players G
    /\ number_of_players G' = number_of_players G
    /\ g_created_at G' = g_created_at G.
Proof.
  intros H. exists (with_status sg j t G).
  destruct (with_status_fields sg j t G) as (H1 & H2 & H3 & H4 & H5 & H6).
  split; [apply updateGameStatus_found; exact H|].
  repeat split; try assumption.
  - apply players_with_status.
  - apply number_of_players_with_status.
Qed.

Lemma updateGameStatus_assigns_given_fields_witness :
  first_game "1000" (Games scenario_joined)
  = Some (0%nat, set_start_game false started_1000)
  /\ exists G',
       updateGameStatus "1000" None (Some false) (Some 60) scenario_joined
       = (mkResponse 200 (J_message_game "Game status updated successfully" G'),
          mkStore (<[0%nat := G']> (Games scenario_joined)) (Drawings scenario_joined))
       /\ start_game G' = default (start_game (set_start_game false started_1000)) None
       /\ join G' = default (join (set_start_game false started_1000)) (Some false)
       /\ drawing_time G'
          = default (drawing_time (set_start_game false started_1000)) (Some 60)
       /\ g_game_code G' = g_game_code (set_start_game false started_1000)
       /\ games_Parts G' = games_Parts (set_start_game false started_1000)
       /\ players G' = players (set_start_game false started_1000)
       /\ number_of_players G' = number_of_players (set_start_game false started_1000)
       /\ g_created_at G' = g_created_at (set_start_game false started_1000).
Proof.
  split; [reflexivity|].
  apply (updateGameStatus_assigns_given_fields scenario_joined "1000"
           None (Some false) (Some 60) 0%nat (set_start_game false started_1000)).
  reflexivity.
Defined.

Lemma with_status_twice sg j t G :
  with_status sg j t (with_status sg j t G) = with_status sg j t G.
Proof. destruct sg, j, t; reflexivity. Qed.

(** X5.  updateGameStatus is idempotent: the same request served a second
    time gives the answer and the collections of the first time. *)
Theorem updateGameStatus_twice s c sg j t :
  updateGameStatus c sg j t (snd (updateGameStatus c sg j t s))
  = updateGameStatus c sg j t s.
Proof.
  destruct (first_game c (Games s)) as [[i G]|] eqn:Hg.
  - rewrite (updateGameStatus_found s c sg j t i G Hg). simpl.
    assert (Hg' : first_game c (<[i := with_status sg j t G]> (Games s))
                  = Some (i, with_status sg j t G)).
    { apply first_game_saved with (g := G); [exact Hg|].
      apply (with_status_fields sg j t G). }
    rewrite (updateGameStatus_found _ c sg j t i (with_status sg j t G)) by exact Hg'.
    simpl. rewrite with_status_twice, list_insert_insert_eq. reflexivity.
  - unfold updateGameStatus. run_route. rewrite Hg. simpl. rewrite Hg. reflexivity.
Qed.

(** ** updateGameWithPlayer *)

Lemma updateGameWithPlayer_found s c p i G :
  first_game c (Games s) = Some (i, G) ->
  updateGameWithPlayer c (Some p) s
  = (mkResponse 200
       (J_message_game "Game updated successfully" (push_player (as_player c p) G)),
     mkStore (<[i := push_player (as_player c p) G]> (Games s)) (Drawings s)).
Proof. intros H. unfold updateGameWithPlayer. run_route. rewrite H. reflexivity. Qed.

(** X6.  updateGameWithPlayer has no gate: whatever the flags of the game
    found for the code, it answers 200 with the whole updated game, appends
    the submitted player, stamped with the code, to the roster, sets
    number_of_players to the new length, and leaves the flags, the other
    fields and the drawings as they were.  The appended entry has the name,
    number, image, body parts and steps of [player_data], the code of the
    request, and the body images of [player_data] or none. *)
Theorem updateGameWithPlayer_appends s c p i G :
  first_game c (Games s) = Some (i, G) ->
  exists G',
    updateGameWithPlayer c (Some p) s
    = (mkResponse 200 (J_message_game "Game updated successfully" G'),
       mkStore (<[i := G']> (Games s)) (Drawings s))
    /\ first_game c (<[i := G']> (Games s)) = Some (i, G')
    /\ players G' = (players G ++ [as_player c p])%list
    /\ players G'
       = (players G ++
          [mkPlayer c (pd_player_name p) (pd_player_number p) (pd_player_image p)
                    (pd_player_body_parts_with_player_names p)
                    (match pd_player_body_images p with
                     | Some images => images
                     | None => []
                     end)
                    (pd_player_current_step p)])%list
    /\ p_game_code (as_player c p) = c
    /\ p_player_body_images (as_player c p) = default [] (pd_player_body_images p)
    /\ number_of_players G' = Z.of_nat (length (players G)) + 1
    /\ start_game G' = start_game G
    /\ join G' = join G
    /\ set_number_of_players (number_of_players G) (set_players (players G) G') = G.
Proof.
  intros H. exists (push_player (as_player c p) G).
  split; [apply updateGameWithPlayer_found; exact H|].
  split; [apply first_game_saved with (g := G); [exact H | reflexivity]|].
  repeat split.
  - simpl. rewrite length_app. simpl. lia.
  - destruct G; reflexivity.
Qed.

Lemma updateGameWithPlayer_appends_witness :
  first_game "1000" (Games scenario_started) = Some (0%nat, started_1000)
  /\ exists G',
       updateGameWithPlayer "1000" (Some bob) scenario_started
       = (mkResponse 200 (J_message_game "Game updated successfully" G'),
          mkStore (<[0%nat := G']> (Games scenario_started)) (Drawings scenario_started))
       /\ first_game "1000" (<[0%nat := G']> (Games scenario_started)) = Some (0%nat, G')
       /\ players G' = (players started_1000 ++ [as_player "1000" bob])%list
       /\ players G'
          = (players started_1000 ++
             [mkPlayer "1000" (pd_player_name bob) (pd_player_number bob)
                       (pd_player_image bob)
                       (pd_player_body_parts_with_player_names bob)
                       (match pd_player_body_images bob with
                        | Some images => images
                        | None => []
                        end)
                       (pd_player_current_step bob)])%list
       /\ p_game_code (as_player "1000" bob) = "1000"
       /\ p_player_body_images (as_player "1000" bob)
          = default [] (pd_player_body_images bob)
       /\ number_of_players G' = Z.of_nat (length (players started_1000)) + 1
       /\ start_game G' = start_game started_1000
       /\ join G' = join started_1000
       /\ set_number_of_players (number_of_players started_1000)
            (set_players (players started_1000) G') = started_1000.
Proof.
  split; [reflexivity|].
  apply (updateGameWithPlayer_appends scenario_started "1000" bob 0%nat started_1000).
  reflexivity.
Defined.

(** X7.  A body without [player_data]: updateGameWithPlayer answers 500 with
    the TypeError's message; validateJoinGame answers 400 when the game is
    started or closed, since the gates come first, and 500 otherwise.  In
    every case nothing is written. *)
Theorem roster_routes_without_player_data s c i G :
  first_game c (Games s) = Some (i, G) ->
  let type_error :=
    mkResponse 500
      (J_message "Cannot read properties of undefined (reading 'player_body_images')") in
  updateGameWithPlayer c None s = (type_error, s)
  /\ validateJoinGame c None s
     = (if start_game G then mkResponse 400 (J_canJoin "Room already started" false)
        else if join G then type_error
        else mkResponse 400 (J_canJoin "Room is not accepting new players" false),
        s).
Proof.
  intros H type_error. subst type_error.
  unfold updateGameWithPlayer, validateJoinGame. run_route. rewrite H.
  split; [reflexivity|].
  destruct (start_game G); [reflexivity|]. destruct (join G); reflexivity.
Qed.

Lemma roster_routes_without_player_data_witness :
  first_game "1000" (Games scenario_joined)
  = Some (0%nat, set_start_game false started_1000)
  /\ let type_error :=
       mkResponse 500
         (J_message "Cannot read properties of undefined (reading 'player_body_images')") in
     updateGameWithPlayer "1000" None scenario_joined = (type_error, scenario_joined)
     /\ validateJoinGame "1000" None scenario_joined
        = (if start_game (set_start_game false started_1000)
           then mkResponse 400 (J_canJoin "Room already started" false)
           else if join (set_start_game false started_1000) then type_error
           else mkResponse 400 (J_canJoin "Room is not accepting new players" false),
           scenario_joined).
Proof.
  split; [reflexivity|].
  apply (roster_routes_without_player_data scenario_joined "1000" 0%nat
           (set_start_game false started_1000)).
  reflexivity.
Defined.

(** X8.  On a game that is open and not started the two roster routes write
    the same thing: validateJoinGame and updateGameWithPlayer leave the same
    collections behind and answer with the same status, for every body. *)
Theorem validateJoinGame_writes_as_updateGameWithPlayer s c pd i G :
  first_game c (Games s) = Some (i, G) ->
  start_game G = false ->
  join G = true ->
  snd (validateJoinGame c pd s) = snd (updateGameWithPlayer c pd s)
  /\ status (fst (validateJoinGame c pd s)) = status (fst (updateGameWithPlayer c pd s)).
Proof.
  intros H Hs Hj. unfold updateGameWithPlayer, validateJoinGame. run_route.
  rewrite H, Hs, Hj. destruct pd; split; reflexivity.
Qed.

Lemma validateJoinGame_writes_as_updateGameWithPlayer_witness :
  start_game open_lobby = false
  /\ join open_lobby = true
  /\ snd (validateJoinGame "1000" (Some bob) (mkStore [open_lobby] []))
     = snd (updateGameWithPlayer "1000" (Some bob) (mkStore [open_lobby] []))
  /\ status (fst (validateJoinGame "1000" (Some bob) (mkStore [open_lobby] [])))
     = status (fst (updateGameWithPlayer "1000" (Some bob) (mkStore [open_lobby] []))).
Proof.
  split; [reflexivity|]. split; [reflexivity|].
  apply (validateJoinGame_writes_as_updateGameWithPlayer
           (mkStore [open_lobby] []) "1000" (Some bob) 0%nat open_lobby);
    reflexivity.
Defined.

(** ** getDrawing *)

Lemma matches_key c n P d :
  matches (mkDrawingFilter (Some c) (Some n) (Some P) None) d = true <-> has_key c n P d.
Proof.
  rewrite matches_spec. unfold has_key. simpl. rewrite !bool_decide_eq_true. tauto.
Qed.

Lemma find_first_match {A} (p : A -> bool) (before after : list A) d :
  (forall x, In x before -> p x = false) -> p d = true ->
  List.find p (before ++ d :: after) = Some d.
Proof.
  intros Hb Hd. induction before as [|x l IH]; simpl.
  - rewrite Hd. reflexivity.
  - rewrite (Hb x (or_introl eq_refl)). apply IH. intros y Hy. apply Hb. right. exact Hy.
Qed.

(** X9.  getDrawing answers with the first document in the collection that
    has the three keys: the documents stored after it, also those with the
    same keys, do not change the answer. *)
Theorem getDrawing_first_of_key gs before d after c n P :
  (forall d', In d' before -> ~ has_key c n P d') ->
  has_key c n P d ->
  getDrawing c n P (mkStore gs (before ++ d :: after))
  = (mkResponse 200 (J_drawing (drawing_points d) (is_completed d)),
     mkStore gs (before ++ d :: after)).
Proof.
  intros Hb Hd. unfold getDrawing. run_route. simpl.
  rewrite find_first_match; [reflexivity | | apply matches_key; exact Hd].
  intros x Hx. apply not_true_is_false. intros Hm.
  apply matches_key in Hm. exact (Hb x Hx Hm).
Qed.

Lemma getDrawing_first_of_key_witness :
  let before := [drawing_of (Some "1000") "ann" "Hat" true] in
  let d := drawing_of (Some "1000") "test" "Hat" false in
  let after := [drawing_of (Some "1000") "test" "Hat" true] in
  has_key "1000" "test" "Hat" d
  /\ getDrawing "1000" "test" "Hat" (mkStore [lobby] (before ++ d :: after))
     = (mkResponse 200 (J_drawing (drawing_points d) (is_completed d)),
        mkStore [lobby] (before ++ d :: after)).
Proof.
  intros before d after.
  assert (Hd : has_key "1000" "test" "Hat" d) by (repeat split).
  split; [exact Hd|].
  apply (getDrawing_first_of_key [lobby] before d after "1000" "test" "Hat");
    [|exact Hd].
  intros d' [<- | []] (_ & Hn & _). simpl in Hn. discriminate.
Defined.

(** X10.  When no document has the three keys getDrawing answers 404
    "Drawing not found" and writes nothing; a document that differs in the
    game, the player or the part does not count. *)
Theorem getDrawing_without_key s c n P :
  (forall d, In d (Drawings s) -> ~ has_key c n P d) ->
  getDrawing c n P s = (mkResponse 404 (J_message "Drawing not found"), s).
Proof.
  intros H. unfold getDrawing. run_route.
  rewrite find_none_if; [reflexivity|].
  intros d Hd. apply not_true_is_false. intros Hm.
  apply matches_key in Hm. exact (H d Hd Hm).
Qed.

Lemma getDrawing_without_key_witness :
  getDrawing "1000" "test" "Hat" lobby_store
  = (mkResponse 404 (J_message "Drawing not found"), lobby_store).
Proof.
  apply (getDrawing_without_key lobby_store "1000" "test" "Hat").
  intros d [<- | [<- | [<- | []]]] (Hc & Hn & Hp);
    simpl in Hc, Hn, Hp; discriminate.
Defined.

(** ** completedDrawings *)

(** X11.  completedDrawings answers 404 exactly when no drawing of any game
    is completed, and otherwise 200 with all the completed drawings of the
    collection in the order they were stored. *)
Theorem completedDrawings_of_all_games c s :
  ((forall d, In d (Drawings s) -> is_completed d = false)
   /\ completedDrawings c s
      = (mkResponse 404 (J_message "No completed drawings found"), s))
  \/ ((exists d, In d (Drawings s) /\ is_completed d = true)
      /\ completedDrawings c s
         = (mkResponse 200 (J_drawings (List.filter is_completed (Drawings s))), s)).
Proof.
  rewrite (completedDrawings_answer c s).
  destruct (List.filter is_completed (Drawings s)) as [|d l] eqn:E.
  - left. split; [|reflexivity].
    intros d Hd. apply not_true_is_false. intros Hc.
    assert (Hin : In d (List.filter is_completed (Drawings s)))
      by (apply List.filter_In; split; assumption).
    rewrite E in Hin. destruct Hin.
  - right. split; [|reflexivity].
    exists d. apply List.filter_In. rewrite E. left. reflexivity.
Qed.

(** X12.  Right after a drawing was sent in with is_completed true,
    completedDrawings answers 200 under every game code, with the completed
    drawings that were there followed by the new document. *)
Theorem finished_drawing_is_listed now b s c :
  dd_is_completed b = Some true ->
  completedDrawings c (snd (updateDrawingStatus now b s))
  = (mkResponse 200
       (J_drawings (List.filter is_completed (Drawings s) ++ [Drawing_new now b])),
     snd (updateDrawingStatus now b s)).
Proof.
  intros Hb. rewrite completedDrawings_answer. simpl.
  rewrite List.filter_app. simpl. rewrite Hb. simpl.
  destruct (List.filter is_completed (Drawings s)); reflexivity.
Qed.

Lemma finished_drawing_is_listed_witness :
  dd_is_completed finished_hat_1000 = Some true
  /\ completedDrawings "2000" (snd (updateDrawingStatus 104 finished_hat_1000 lobby_store))
     = (mkResponse 200
          (J_drawings (List.filter is_completed (Drawings lobby_store)
                       ++ [Drawing_new 104 finished_hat_1000])),
        snd (updateDrawingStatus 104 finished_hat_1000 lobby_store)).
Proof.
  split; [reflexivity|].
  apply (finished_drawing_is_listed 104 finished_hat_1000 lobby_store "2000").
  reflexivity.
Defined.

(** ** Drawings that came in through the API *)

Lemma served_drawings_keep_no_game_code s0 s :
  reachable_from s0 s ->
  (forall d, In d (Drawings s0) -> game_code d = None) ->
  forall d, In d (Drawings s) -> game_code d = None.
Proof.
  intros Hr H0. induction Hr as [|s now req Hr IH _]; [exact H0|].
  intros d Hd. rewrite serve_Drawings in Hd.
  destruct req; try (apply IH; exact Hd).
  apply in_app_or in Hd as [Hd | [<- | []]]; [apply IH; exact Hd | reflexivity].
Qed.

(** X13.  drawingSchema has no game_code path, so a drawing that came in
    through updateDrawingStatus is stored without one, and the two routes that
    filter drawings on game_code never see it: starting from collections whose
    drawings carry no game_code, getDrawing answers 404 for every key and
    incompleteUsers answers with the whole roster of the game, whatever
    drawings were sent in. *)
Theorem game_code_filters_find_no_served_drawing s0 s c n P i G :
  reachable_from s0 s ->
  (forall d, In d (Drawings s0) -> game_code d = None) ->
  first_game c (Games s) = Some (i, G) ->
  getDrawing c n P s = (mkResponse 404 (J_message "Drawing not found"), s)
  /\ incompleteUsers c P s
     = (mkResponse 200 (J_incompletePlayers (map p_player_name (players G))), s).
Proof.
  intros Hr H0 Hg.
  assert (Hnone : forall d, In d (Drawings s) -> game_code d = None)
    by (apply (served_drawings_keep_no_game_code s0 s Hr H0)).
  split.
  - unfold getDrawing. run_route.
    rewrite find_none_if; [reflexivity|].
    intros d Hd. apply game_code_filter_needs_field with (c := c); [reflexivity|].
    apply Hnone. exact Hd.
  - rewrite (incompleteUsers_found s c P i G Hg).
    rewrite List.forallb_filter_id; [reflexivity|].
    apply forallb_forall. intros m _.
    apply negb_true_iff. apply not_true_is_false. intros Hc.
    apply completedPlayerNames_spec in Hc as (d & Hin & Hcode & _).
    rewrite (Hnone d Hin) in Hcode. discriminate.
Qed.

Lemma game_code_filters_find_no_served_drawing_witness :
  first_game "1000" (Games after_finished_hat)
  = Some (0%nat, set_start_game false started_1000)
  /\ getDrawing "1000" "test" "Hat" after_finished_hat
     = (mkResponse 404 (J_message "Drawing not found"), after_finished_hat)
  /\ incompleteUsers "1000" "Hat" after_finished_hat
     = (mkResponse 200
          (J_incompletePlayers
             (map p_player_name (players (set_start_game false started_1000)))),
        after_finished_hat).
Proof.
  split; [reflexivity|].
  apply (game_code_filters_find_no_served_drawing empty_store after_finished_hat
           "1000" "test" "Hat" 0%nat (set_start_game false started_1000)).
  - unfold reachable_from, after_finished_hat, scenario_joined, scenario_created.
    apply reach_serve; [|exact I].
    apply reach_serve; [|exact I].
    apply reach_serve; [apply reach_start | exact I].
  - intros d [].
  - reflexivity.
Defined.

(** X14.  No request deletes or rewrites a drawing: the collection reached
    from [s0] is the collection of [s0] followed by the drawings that came in
    since, none of which carries a game_code. *)
Theorem drawings_are_only_appended s0 s :
  reachable_from s0 s ->
  exists more,
    Drawings s = (Drawings s0 ++ more)%list
    /\ forall d, In d more -> game_code d = None.
Proof.
  intros Hr. induction Hr as [|s now req Hr (more & E & Hnone) _].
  - exists []. split; [symmetry; apply app_nil_r | intros d []].
  - rewrite serve_Drawings.
    destruct req; try (exists more; split; [exact E | exact Hnone]).
    exists (more ++ [Drawing_new now drawingData])%list. split.
    + rewrite E. symmetry. apply app_assoc.
    + intros d Hd. apply in_app_or in Hd as [Hd | [<- | []]];
        [apply Hnone; exact Hd | reflexivity].
Qed.

Lemma drawings_are_only_appended_witness :
  exists more,
    Drawings (snd (serve 105 (POST_updateDrawingStatus finished_hat_1000) lobby_store))
    = (Drawings lobby_store ++ more)%list
    /\ forall d, In d more -> game_code d = None.
Proof.
  apply (drawings_are_only_appended lobby_store
           (snd (serve 105 (POST_updateDrawingStatus finished_hat_1000) lobby_store))).
  unfold reachable_from. apply reach_serve; [apply reach_start | exact I].
Defined.

(** ** What a code resolves to *)

Lemma first_game_after now req gs c i g :
  first_game c gs = Some (i, g) ->
  exists g' more,
    first_game c (games_after now req gs) = Some (i, g')
    /\ games_Parts g' = games_Parts g
    /\ g_created_at g' = g_created_at g
    /\ players g' = (players g ++ more)%list.
Proof.
  intros H.
  assert (Hsame : exists g' more, first_game c gs = Some (i, g')
            /\ games_Parts g' = games_Parts g /\ g_created_at g' = g_created_at g
            /\ players g' = (players g ++ more)%list).
  { exists g, []. rewrite app_nil_r. auto. }
  assert (Hsave : forall c2 k gk y more,
            first_game c2 gs = Some (k, gk) ->
            g_game_code y = g_game_code gk ->
            games_Parts y = games_Parts gk ->
            g_created_at y = g_created_at gk ->
            players y = (players gk ++ more)%list ->
            exists g' more', first_game c (<[k := y]> gs) = Some (i, g')
              /\ games_Parts g' = games_Parts g /\ g_created_at g' = g_created_at g
              /\ players g' = (players g ++ more')%list).
  { intros c2 k gk y more Hk Hc Hp Ht Hr.
    destruct (first_game_Some _ _ _ _ Hk) as [Hlk _].
    destruct (first_game_Some _ _ _ _ H) as [Hli _].
    unfold first_game.
    rewrite (find_index_insert_same _ gs k gk y Hlk)
      by (unfold str_eqb; rewrite Hc; reflexivity).
    fold (first_game c gs). rewrite H.
    destruct (decide (i = k)) as [->|Hne].
    - assert (gk = g) as -> by congruence.
      exists y, more. auto.
    - exists g, []. rewrite app_nil_r. auto. }
  destruct req as [b|b|c' P|c' n P|c'|c' [p|]|c' sg j t|c' [p|]|c']; simpl;
    try exact Hsame.
  - exists g, []. rewrite app_nil_r. repeat split.
    unfold first_game in *. apply find_index_app_Some. exact H.
  - destruct (first_game c' gs) as [[k gk]|] eqn:Hk; [|exact Hsame].
    apply (Hsave c' k gk _ [as_player c' p] Hk); reflexivity.
  - destruct (first_game c' gs) as [[k gk]|] eqn:Hk; [|exact Hsame].
    destruct (with_status_fields sg j t gk) as (_ & _ & _ & H4 & H5 & H6).
    apply (Hsave c' k gk _ [] Hk); try assumption.
    rewrite app_nil_r. apply players_with_status.
  - destruct (first_game c' gs) as [[k gk]|] eqn:Hk; [|exact Hsame].
    destruct (start_game gk || negb (join gk)); [exact Hsame|].
    apply (Hsave c' k gk _ [as_player c' p] Hk); reflexivity.
Qed.

(** X15.  A code keeps the game it resolves to: whatever requests are served,
    the game found for the code stays the document at the same place, with
    the same parts and creation time, and its roster only grows at the end.
    A game stored later under the same code is never the one found. *)
Theorem code_resolves_to_the_same_game s0 s c i g :
  reachable_from s0 s ->
  first_game c (Games s0) = Some (i, g) ->
  exists g' more,
    first_game c (Games s) = Some (i, g')
    /\ games_Parts g' = games_Parts g
    /\ g_created_at g' = g_created_at g
    /\ players g' = (players g ++ more)%list.
Proof.
  intros Hr H0. induction Hr as [|s now req Hr (g1 & more1 & H1 & Hp & Ht & Hpl) _].
  - exists g, []. rewrite app_nil_r. auto.
  - rewrite serve_Games.
    destruct (first_game_after now req (Games s) c i g1 H1)
      as (g2 & more2 & H2 & Hp2 & Ht2 & Hpl2).
    exists g2, (more1 ++ more2)%list. split; [exact H2|].
    split; [congruence|]. split; [congruence|].
    rewrite Hpl2, Hpl. symmetry. apply app_assoc.
Qed.

Lemma code_resolves_to_the_same_game_witness :
  first_game "1000" (Games scenario_created) = Some (0%nat, Game_new 100 body_1000)
  /\ exists g' more,
       first_game "1000"
         (Games (snd (serve 103 (POST_storeGameState body_1000) scenario_started)))
       = Some (0%nat, g')
       /\ games_Parts g' = games_Parts (Game_new 100 body_1000)
       /\ g_created_at g' = g_created_at (Game_new 100 body_1000)
       /\ players g' = (players (Game_new 100 body_1000) ++ more)%list.
Proof.
  split; [reflexivity|].
  apply (code_resolves_to_the_same_game scenario_created
           (snd (serve 103 (POST_storeGameState body_1000) scenario_started))
           "1000" 0%nat (Game_new 100 body_1000)).
  - unfold reachable_from, scenario_started, scenario_joined.
    apply reach_serve; [|exact I].
    apply reach_serve; [|exact I].
    apply reach_serve; [apply reach_start | exact I].
  - reflexivity.
Defined.

(** ** Answers and writes *)

Lemma getDrawing_store s c n P : snd (getDrawing c n P s) = s.
Proof.
  unfold getDrawing. run_route. destruct (List.find _ (Drawings s)); reflexivity.
Qed.

Lemma getGameData_store s c : snd (getGameData c s) = s.
Proof.
  unfold getGameData. run_route.
  destruct (first_game c (Games s)) as [[i g]|]; reflexivity.
Qed.

Lemma completedDrawings_store s c : snd (completedDrawings c s) = s.
Proof. rewrite completedDrawings_answer. reflexivity. Qed.

(** X16.  The three routes that save a game they looked up are all or
    nothing: updateGameWithPlayer, updateGameStatus and validateJoinGame
    answer 200, 400, 404 or 500, and when the answer is not 200 (no game, a
    closed or started room, a body without player_data) both collections are
    what they were before the request.  The two creating routes are left
    out: their 400 answers come from a document the schema rejects, which a
    typed body cannot be. *)
Theorem refused_game_update_writes_nothing now req s :
  saves_found_game req = true ->
  (status (fst (serve now req s)) = 200
   \/ status (fst (serve now req s)) = 400
   \/ status (fst (serve now req s)) = 404
   \/ status (fst (serve now req s)) = 500)
  /\ (status (fst (serve now req s)) <> 200 -> snd (serve now req s) = s).
Proof.
  destruct req as [b|b|c P|c n P|c|c pd|c sg j t|c pd|c]; simpl;
    try discriminate; intros _.
  - unfold updateGameWithPlayer. run_route.
    destruct (first_game c (Games s)) as [[i g]|]; [|simpl; auto].
    destruct pd; simpl; [|auto].
    split; [auto|]. intros H. exfalso. apply H. reflexivity.
  - unfold updateGameStatus. run_route.
    destruct (first_game c (Games s)) as [[i g]|]; [|simpl; auto].
    simpl. split; [auto|]. intros H. exfalso. apply H. reflexivity.
  - unfold validateJoinGame. run_route.
    destruct (first_game c (Games s)) as [[i g]|]; [|simpl; auto].
    destruct (start_game g); [simpl; auto|].
    destruct (join g); [|simpl; auto].
    destruct pd; simpl; [|auto].
    split; [auto|]. intros H. exfalso. apply H. reflexivity.
Qed.

Lemma refused_game_update_writes_nothing_witness :
  saves_found_game (POST_validateJoinGame "1000" None) = true
  /\ status (fst (serve 103 (POST_validateJoinGame "1000" None) scenario_joined)) = 500
  /\ snd (serve 103 (POST_validateJoinGame "1000" None) scenario_joined)
     = scenario_joined.
Proof.
  split; [reflexivity|]. split; [reflexivity|].
  apply (refused_game_update_writes_nothing 103
           (POST_validateJoinGame "1000" None) scenario_joined).
  - reflexivity.
  - vm_compute. discriminate.
Defined.

(** X17.  The four GET routes never write, whatever they answer. *)
Theorem GET_requests_write_nothing now req s :
  is_GET req = true -> snd (serve now req s) = s.
Proof.
  destruct req; simpl; try discriminate; intros _.
  - apply incompleteUsers_store.
  - apply getDrawing_store.
  - apply completedDrawings_store.
  - apply getGameData_store.
Qed.

Lemma GET_requests_write_nothing_witness :
  is_GET (GET_completedDrawings "1000") = true
  /\ snd (serve 0 (GET_completedDrawings "1000") lobby_store) = lobby_store.
Proof.
  split; [reflexivity|].
  apply (GET_requests_write_nothing 0 (GET_completedDrawings "1000") lobby_store).
  reflexivity.
Defined.

(** ** incompleteUsers, both routers *)

(** X18.  The older incompleteUsers lists the roster names of the game found
    for the code, in order, and drops a name if and only if some drawing for
    the part, of any game, is NOT completed and carries that name; the game
    code only selects the roster. *)
Theorem Legacy_incompleteUsers_drops_unfinished s c P i G :
  first_game c (Games s) = Some (i, G) ->
  exists keep : string -> bool,
    (forall n, keep n = false <-> unfinished_by (Drawings s) P n)
    /\ Legacy.incompleteUsers c P s =
       (mkResponse 200
          (J_incompletePlayers (List.filter keep (map p_player_name (players G)))), s).
Proof.
  intros H. eexists. split; [|apply Legacy_incompleteUsers_found with (i := i); exact H].
  intros n. simpl. rewrite negb_false_iff, includes_spec, List.in_map_iff.
  unfold unfinished_by. split.
  - intros (d & Hn & Hd). apply List.filter_In in Hd as [Hin Hm].
    apply matches_spec in Hm as (_ & _ & Hp & Hk). simpl in Hp, Hk.
    apply bool_decide_eq_true in Hp, Hk.
    exists d. repeat split; try assumption. congruence.
  - intros (d & Hin & Hp & Hk & Hn). exists d. split; [exact Hn|].
    apply List.filter_In. split; [exact Hin|].
    apply matches_spec. simpl. rewrite Hp, Hk.
    repeat split; apply bool_decide_eq_true; reflexivity.
Qed.

Lemma Legacy_incompleteUsers_drops_unfinished_witness :
  first_game "1000" (Games lobby_store) = Some (0%nat, lobby)
  /\ exists keep : string -> bool,
       (forall n, keep n = false <-> unfinished_by (Drawings lobby_store) "Hat" n)
       /\ Legacy.incompleteUsers "1000" "Hat" lobby_store =
          (mkResponse 200
             (J_incompletePlayers (List.filter keep (map p_player_name (players lobby)))),
           lobby_store).
Proof.
  split; [reflexivity|].
  apply (Legacy_incompleteUsers_drops_unfinished lobby_store "1000" "Hat" 0%nat lobby).
  reflexivity.
Defined.

(** X19.  The part name is not checked against the parts of the game: for a
    part that no drawing has, incompleteUsers answers 200 with the whole
    roster, repetitions included, and not 404. *)
Theorem incompleteUsers_of_unknown_part s c P i G :
  first_game c (Games s) = Some (i, G) ->
  (forall d, In d (Drawings s) -> player_part d <> Some P) ->
  incompleteUsers c P s
  = (mkResponse 200 (J_incompletePlayers (map p_player_name (players G))), s).
Proof.
  intros Hg Hp. rewrite (incompleteUsers_found s c P i G Hg).
  rewrite List.forallb_filter_id; [reflexivity|].
  apply forallb_forall. intros n _.
  apply negb_true_iff. apply not_true_is_false. intros Hc.
  apply completedPlayerNames_spec in Hc as (d & Hin & _ & Hpart & _).
  exact (Hp d Hin Hpart).
Qed.

Lemma incompleteUsers_of_unknown_part_witness :
  first_game "1000" (Games lobby_store) = Some (0%nat, lobby)
  /\ incompleteUsers "1000" "Tail" lobby_store
     = (mkResponse 200 (J_incompletePlayers (map p_player_name (players lobby))),
        lobby_store).
Proof.
  split; [reflexivity|].
  apply (incompleteUsers_of_unknown_part lobby_store "1000" "Tail" 0%nat lobby).
  - reflexivity.
  - intros d [<- | [<- | [<- | []]]]; simpl; discriminate.
Defined.

(** ** Flags and joins in sequence *)

Lemma first_game_after_status s c sg j t i G :
  first_game c (Games s) = Some (i, G) ->
  first_game c (Games (snd (updateGameStatus c sg j t s)))
  = Some (i, with_status sg j t G).
Proof.
  intros H. rewrite (updateGameStatus_found s c sg j t i G H). simpl.
  apply first_game_saved with (g := G); [exact H|].
  apply (with_status_fields sg j t G).
Qed.

(** X20.  Once updateGameStatus has set start_game, validateJoinGame for the
    code answers 400 "Room already started" and writes nothing, whatever join
    says and whatever the body holds. *)
Theorem join_after_start_is_refused s c j t pd i G :
  first_game c (Games s) = Some (i, G) ->
  validateJoinGame c pd (snd (updateGameStatus c (Some true) j t s))
  = (mkResponse 400 (J_canJoin "Room already started" false),
     snd (updateGameStatus c (Some true) j t s)).
Proof.
  intros H.
  apply validateJoinGame_started with (i := i) (G := with_status (Some true) j t G).
  - apply first_game_after_status. exact H.
  - destruct (with_status_fields (Some true) j t G) as (Hs & _). exact Hs.
Qed.

Lemma join_after_start_is_refused_witness :
  first_game "1000" (Games (mkStore [open_lobby] [])) = Some (0%nat, open_lobby)
  /\ validateJoinGame "1000" (Some bob)
       (snd (updateGameStatus "1000" (Some true) (Some true) None
               (mkStore [open_lobby] [])))
     = (mkResponse 400 (J_canJoin "Room already started" false),
        snd (updateGameStatus "1000" (Some true) (Some true) None
               (mkStore [open_lobby] []))).
Proof.
  split; [reflexivity|].
  apply (join_after_start_is_refused (mkStore [open_lobby] []) "1000"
           (Some true) None (Some bob) 0%nat open_lobby).
  reflexivity.
Defined.

(** X21.  The started flag is no latch: updateGameStatus can clear it, and
    after start_game false and join true were written validateJoinGame lets a
    player into a game that had been started and closed. *)
Theorem join_after_reopening s c t p i G :
  first_game c (Games s) = Some (i, G) ->
  let reopened := snd (updateGameStatus c (Some false) (Some true) t s) in
  exists G',
    status (fst (validateJoinGame c (Some p) reopened)) = 200
    /\ first_game c (Games (snd (validateJoinGame c (Some p) reopened))) = Some (i, G')
    /\ players G' = (players G ++ [as_player c p])%list
    /\ start_game G' = false
    /\ join G' = true.
Proof.
  intros H reopened.
  assert (H1 : first_game c (Games reopened)
               = Some (i, with_status (Some false) (Some true) t G))
    by (apply first_game_after_status; exact H).
  destruct (with_status_fields (Some false) (Some true) t G) as (Hs & Hj & _).
  exists (push_player (as_player c p) (with_status (Some false) (Some true) t G)).
  rewrite (validateJoinGame_open reopened c p i _ H1 Hs Hj). simpl.
  split; [reflexivity|]. split.
  - apply first_game_saved with (g := with_status (Some false) (Some true) t G);
      [exact H1 | reflexivity].
  - rewrite players_with_status. repeat split.
    + destruct t; reflexivity.
    + destruct t; reflexivity.
Qed.

Lemma join_after_reopening_witness :
  first_game "1000" (Games (mkStore [started_closed_lobby] []))
  = Some (0%nat, started_closed_lobby)
  /\ let reopened :=
       snd (updateGameStatus "1000" (Some false) (Some true) None
              (mkStore [started_closed_lobby] [])) in
     exists G',
       status (fst (validateJoinGame "1000" (Some bob) reopened)) = 200
       /\ first_game "1000" (Games (snd (validateJoinGame "1000" (Some bob) reopened)))
          = Some (0%nat, G')
       /\ players G' = (players started_closed_lobby ++ [as_player "1000" bob])%list
       /\ start_game G' = false
       /\ join G' = true.
Proof.
  split; [reflexivity|].
  apply (join_after_reopening (mkStore [started_closed_lobby] []) "1000" None bob
           0%nat started_closed_lobby).
  reflexivity.
Defined.

(** X22.  Names are not checked on joining: validateJoinGame served twice with
    the same player answers 200 both times and leaves the player on the roster
    twice, with number_of_players two more than the roster had. *)
Theorem joining_twice_repeats_the_player s c p i G :
  first_game c (Games s) = Some (i, G) ->
  start_game G = false ->
  join G = true ->
  let once := snd (validateJoinGame c (Some p) s) in
  exists G2,
    status (fst (validateJoinGame c (Some p) once)) = 200
    /\ first_game c (Games (snd (validateJoinGame c (Some p) once))) = Some (i, G2)
    /\ players G2 = (players G ++ [as_player c p; as_player c p])%list
    /\ number_of_players G2 = Z.of_nat (length (players G)) + 2.
Proof.
  intros H Hs Hj once.
  assert (H1 : first_game c (Games once) = Some (i, push_player (as_player c p) G)).
  { subst once. rewrite (validateJoinGame_open s c p i G H Hs Hj). simpl.
    apply first_game_saved with (g := G); [exact H | reflexivity]. }
  exists (push_player (as_player c p) (push_player (as_player c p) G)).
  rewrite (validateJoinGame_open once c p i _ H1 Hs Hj). simpl.
  split; [reflexivity|]. split.
  - apply first_game_saved with (g := push_player (as_player c p) G);
      [exact H1 | reflexivity].
  - split.
    + rewrite <- app_assoc. reflexivity.
    + rewrite !length_app. simpl. lia.
Qed.

Lemma joining_twice_repeats_the_player_witness :
  start_game open_lobby = false
  /\ join open_lobby = true
  /\ let once := snd (validateJoinGame "1000" (Some bob) (mkStore [open_lobby] [])) in
     exists G2,
       status (fst (validateJoinGame "1000" (Some bob) once)) = 200
       /\ first_game "1000" (Games (snd (validateJoinGame "1000" (Some bob) once)))
          = Some (0%nat, G2)
       /\ players G2 = (players open_lobby ++ [as_player "1000" bob; as_player "1000" bob])%list
       /\ number_of_players G2 = Z.of_nat (length (players open_lobby)) + 2.
Proof.
  split; [reflexivity|]. split; [reflexivity|].
  apply (joining_twice_repeats_the_player (mkStore [open_lobby] []) "1000" bob
           0%nat open_lobby); reflexivity.
Defined.
